(** * SMRT Laundry client: request orchestration of the Expo app

    A shallow embedding of the client code under [app/]: the transport hook
    [useApi], the chat screen's [send], the price list's [load] with its
    pager, the report screen's [load] and the formatter [fmtCurrency].

    React state is explicit: each component is a record of its [useState]
    cells, a handler is a function from the committed state to the next one
    together with the requests it issues, and an [async] function is cut at
    its [await]: the part that runs at once, and the part that runs when the
    fetch settles. *)

From Stdlib Require Import ZArith QArith Qround List String Ascii Bool Lia.
From Stdlib Require Import Numbers.DecimalString Numbers.DecimalPos Numbers.DecimalZ.
Import ListNotations.

Local Close Scope Q_scope.
Local Open Scope Z_scope.
Local Open Scope string_scope.

(* ===================================================================== *)
(** ** The JavaScript values the screens handle *)
(* ===================================================================== *)

Module Js.

(** Strings are held as their UTF-8 bytes. *)

Definition nl : string := String (ascii_of_nat 10) EmptyString.
Definition dquote : string := String (ascii_of_nat 34) EmptyString.

(** [String(n)] of an integer, as [Date.now()] and the page size are. *)
Definition show_Z (z : Z) : string := NilZero.string_of_int (Z.to_int z).

(** [sub] occurs in [s]. *)
Definition occurs_in (sub s : string) : Prop :=
  exists pre post, s = pre ++ sub ++ post.

(** *** [String.prototype.trim]

    White space of ECMAScript: TAB, LF, VT, FF, CR, SP, and in UTF-8 the
    no-break space (C2 A0), U+1680 (E1 9A 80), U+2000..U+200A, U+2028, U+2029,
    U+202F (E2 80 ..), U+205F (E2 81 9F), U+3000 (E3 80 80) and the byte order
    mark U+FEFF (EF BB BF). *)

Definition space1 (c : ascii) : bool :=
  let n := N_of_ascii c in
  ((9 <=? n) && (n <=? 13) || (n =? 32))%N.

Definition space2 (c1 c2 : ascii) : bool :=
  ((N_of_ascii c1 =? 194) && (N_of_ascii c2 =? 160))%N.

Definition space3 (c1 c2 c3 : ascii) : bool :=
  let a := N_of_ascii c1 in
  let b := N_of_ascii c2 in
  let c := N_of_ascii c3 in
  ((a =? 225) && (b =? 154) && (c =? 128)
   || (a =? 226) && (b =? 128)
      && ((128 <=? c) && (c <=? 138) || (c =? 168) || (c =? 169) || (c =? 175))
   || (a =? 226) && (b =? 129) && (c =? 159)
   || (a =? 227) && (b =? 128) && (c =? 128)
   || (a =? 239) && (b =? 187) && (c =? 191))%N.

Fixpoint trimStart (s : string) : string :=
  match s with
  | EmptyString => s
  | String c1 r1 =>
    if space1 c1 then trimStart r1 else
    match r1 with
    | EmptyString => s
    | String c2 r2 =>
      if space2 c1 c2 then trimStart r2 else
      match r2 with
      | EmptyString => s
      | String c3 r3 => if space3 c1 c2 c3 then trimStart r3 else s
      end
    end
  end.

(** [s] is white space only. *)
Fixpoint blank (s : string) : bool :=
  match s with
  | EmptyString => true
  | String c1 r1 =>
    if space1 c1 then blank r1 else
    match r1 with
    | EmptyString => false
    | String c2 r2 =>
      if space2 c1 c2 then blank r2 else
      match r2 with
      | EmptyString => false
      | String c3 r3 => if space3 c1 c2 c3 then blank r3 else false
      end
    end
  end.

Fixpoint trimEnd (s : string) : string :=
  match s with
  | EmptyString => EmptyString
  | String c r => if blank s then EmptyString else String c (trimEnd r)
  end.

Definition trim (s : string) : string := trimEnd (trimStart s).

(** [s.includes(k)] *)
Fixpoint includes (k s : string) : bool :=
  prefix k s
  || match s with
     | EmptyString => false
     | String _ rest => includes k rest
     end.

(** [s.toLowerCase()] of a text in ASCII. *)
Definition lower_char (c : ascii) : ascii :=
  let n := N_of_ascii c in
  if ((65 <=? n) && (n <=? 90))%N then ascii_of_N (n + 32) else c.

Fixpoint lower_ascii (s : string) : string :=
  match s with
  | EmptyString => EmptyString
  | String c rest => String (lower_char c) (lower_ascii rest)
  end.

(** *** Exceptions

    What the code throws and catches are [Error] objects, read through their
    [message]: [fetch] rejects with a [TypeError], [res.json()] with a
    [SyntaxError], the hook throws [new Error(...)]. *)

Inductive exn : Type := Error (msg : string).

Definition message (e : exn) : string := let 'Error m := e in m.

Inductive result (A : Type) : Type :=
| Return (a : A)
| Throw (e : exn).
Arguments Return {A} a.
Arguments Throw {A} e.

Definition bind {A B} (c : result A) (k : A -> result B) : result B :=
  match c with Return a => k a | Throw e => Throw e end.

(** [try { c } catch (e) { h e }] *)
Definition try_catch {A} (c : result A) (h : exn -> result A) : result A :=
  match c with Return a => Return a | Throw e => h e end.

Declare Scope js_scope.
Delimit Scope js_scope with js.
Notation "x <- c ;; k" := (bind c (fun x => k))
  (at level 61, c at next level, right associativity) : js_scope.

(** *** Numbers

    Numbers are IEEE doubles and their printing is the engine's. The screens
    never compute with the numbers of a payload, they test and print them, so
    the number type and the built-ins over it are an interface. *)

Class JsNumber (number : Type) : Type := {
  (** [Number.isNaN(n)] *)
  num_isNaN : number -> bool;
  (** [n] is [+0] or [-0] *)
  num_isZero : number -> bool;
  (** [String(n)], also what a template literal prints *)
  num_show : number -> string;
  (** [JSON.stringify(n)]: the digits, [null] for what is not finite *)
  num_json : number -> string;
  (** [Number(s)] of a string *)
  Number_of : string -> number;
  (** [new Intl.NumberFormat(undefined, {style: "currency", currency}).format(n)]
      in the runtime's locale; it throws a [RangeError] on a currency code
      it does not accept. *)
  Intl_currency : string -> number -> result string
}.

(** *** Parsed JSON

    An object lists its properties in the order the engine enumerates them,
    each key once. *)

#[warnings="-register-all"]
Inductive json (number : Type) : Type :=
| JNull
| JBool (b : bool)
| JNum (n : number)
| JStr (s : string)
| JArr (items : list (json number))
| JObj (fields : list (string * json number)).
Arguments JNull {number}.
Arguments JBool {number} b.
Arguments JNum {number} n.
Arguments JStr {number} s.
Arguments JArr {number} items.
Arguments JObj {number} fields.

(** A value that may be [undefined]. *)
Definition jsval (number : Type) : Type := option (json number).
Definition undefined {number} : jsval number := None.

Section Values.
Context {number : Type} `{JsNumber number}.

Fixpoint assoc (k : string) (fields : list (string * json number)) : jsval number :=
  match fields with
  | [] => None
  | (k', v) :: rest => if String.eqb k k' then Some v else assoc k rest
  end.

(** Own property [k] of a value that is neither [null] nor [undefined]. The
    keys the screens read ([detail], [message], [issues], [sql], [rows],
    [row_count], [answer]) are properties of no primitive wrapper and of no
    array, so only an object has them. *)
Definition prop (j : json number) (k : string) : jsval number :=
  match j with
  | JObj fields => assoc k fields
  | _ => None
  end.

(** [v?.k] *)
Definition get_opt (v : jsval number) (k : string) : jsval number :=
  match v with
  | None | Some JNull => None
  | Some j => prop j k
  end.

(** The [TypeError] of a property read on [null] or [undefined] (V8's text). *)
Definition cannot_read (what k : string) : exn :=
  Error ("Cannot read properties of " ++ what ++ " (reading '" ++ k ++ "')").

(** [v.k] *)
Definition get (v : jsval number) (k : string) : result (jsval number) :=
  match v with
  | None => Throw (cannot_read "undefined" k)
  | Some JNull => Throw (cannot_read "null" k)
  | Some j => Return (prop j k)
  end.

Definition str_truthy (s : string) : bool :=
  match s with EmptyString => false | _ => true end.

(** [!!v] *)
Definition truthy (v : jsval number) : bool :=
  match v with
  | None | Some JNull => false
  | Some (JBool b) => b
  | Some (JNum n) => negb (num_isZero n || num_isNaN n)
  | Some (JStr s) => str_truthy s
  | Some (JArr _) | Some (JObj _) => true
  end.

(** [a || b] *)
Definition or_else (a b : jsval number) : jsval number :=
  if truthy a then a else b.

(** [a ?? b] *)
Definition nullish (a b : jsval number) : jsval number :=
  match a with
  | None | Some JNull => b
  | _ => a
  end.

(** [String(j)]; an array prints its elements joined by commas, a [null]
    element as nothing. This is the conversion of the values that are
    [printable] (below): an object that has an own [toString] key, which a
    parsed value can only hold as data, makes the conversion throw a
    [TypeError] instead, and that path is not modelled. The payloads of the
    three endpoints carry no such key. *)
Fixpoint to_string (j : json number) : string :=
  match j with
  | JNull => "null"
  | JBool true => "true"
  | JBool false => "false"
  | JNum n => num_show n
  | JStr s => s
  | JArr items =>
    String.concat ","
      (map (fun x => match x with JNull => EmptyString | _ => to_string x end) items)
  | JObj _ => "[object Object]"
  end.

(** What a template literal prints for [v]. *)
Definition str_of (v : jsval number) : string :=
  match v with
  | None => "undefined"
  | Some j => to_string j
  end.

(** [items.join(sep)], of [printable] elements as for [to_string]. *)
Definition join (sep : string) (items : list (json number)) : string :=
  String.concat sep
    (map (fun x => match x with JNull => EmptyString | _ => to_string x end) items).

(** [String(j)] returns: no object that the conversion reaches has an own
    [toString] key. An object without one prints through
    [Object.prototype.toString], whatever it holds; an array prints its
    elements. *)
Fixpoint printable (j : json number) : bool :=
  match j with
  | JArr items => forallb printable items
  | JObj fields =>
    match assoc "toString" fields with
    | Some _ => false
    | None => true
    end
  | _ => true
  end.

Definition printable_val (v : jsval number) : bool :=
  match v with
  | None => true
  | Some j => printable j
  end.

(** *** [JSON.stringify] *)

Definition hex_digit (n : N) : string :=
  String.substring (N.to_nat n) 1 "0123456789abcdef".

Definition escape_char (c : ascii) : string :=
  let n := N_of_ascii c in
  if (n =? 34)%N then "\" ++ dquote
  else if (n =? 92)%N then "\\"
  else if (n =? 8)%N then "\b"
  else if (n =? 12)%N then "\f"
  else if (n =? 10)%N then "\n"
  else if (n =? 13)%N then "\r"
  else if (n =? 9)%N then "\t"
  else if (n <? 32)%N then "\u00" ++ hex_digit (n / 16) ++ hex_digit (n mod 16)
  else String c EmptyString.

Fixpoint escape (s : string) : string :=
  match s with
  | EmptyString => EmptyString
  | String c r => escape_char c ++ escape r
  end.

Definition quote (s : string) : string := dquote ++ escape s ++ dquote.

(** [JSON.stringify(j)] *)
Fixpoint stringify (j : json number) : string :=
  match j with
  | JNull => "null"
  | JBool true => "true"
  | JBool false => "false"
  | JNum n => num_json n
  | JStr s => quote s
  | JArr items => "[" ++ String.concat "," (map stringify items) ++ "]"
  | JObj fields =>
    "{" ++ String.concat ","
             (map (fun '(k, v) => quote k ++ ":" ++ stringify v) fields) ++ "}"
  end.

(** [JSON.stringify(j, null, 2)] below the indentation [ind]. *)
Fixpoint stringify_at (ind : string) (j : json number) : string :=
  let deeper := ind ++ "  " in
  match j with
  | JArr [] => "[]"
  | JObj [] => "{}"
  | JArr items =>
    "[" ++ nl ++ deeper
        ++ String.concat ("," ++ nl ++ deeper) (map (stringify_at deeper) items)
        ++ nl ++ ind ++ "]"
  | JObj fields =>
    "{" ++ nl ++ deeper
        ++ String.concat ("," ++ nl ++ deeper)
             (map (fun '(k, v) => quote k ++ ": " ++ stringify_at deeper v) fields)
        ++ nl ++ ind ++ "}"
  | _ => stringify j
  end.

Definition stringify_pretty (j : json number) : string := stringify_at EmptyString j.

End Values.

(** *** The settled [fetch]

    [await fetch(...)] either rejects, or resolves to a response with its
    [ok] flag; [await res.json()] then either rejects (the payload is not
    JSON) or resolves to the parsed value, of type [P]. *)

Inductive body (P : Type) : Type :=
| NotJson (e : exn)
| Json (j : P).
Arguments NotJson {P} e.
Arguments Json {P} j.

Inductive fetched (P : Type) : Type :=
| Rejected (e : exn)
| Response (ok : bool) (b : body P).
Arguments Rejected {P} e.
Arguments Response {P} ok b.

(** [const res = await fetch(...); const data = await res.json();] *)
Definition awaited {P} (o : fetched P) : result (bool * P) :=
  match o with
  | Rejected e => Throw e
  | Response _ (NotJson e) => Throw e
  | Response ok (Json j) => Return (ok, j)
  end.

(** The fetch delivered nothing to show: it was rejected, the payload was not
    JSON, or the status was not a success. *)
Definition failed {P} (o : fetched P) : bool :=
  match o with
  | Rejected _ => true
  | Response _ (NotJson _) => true
  | Response ok (Json _) => negb ok
  end.

(** The payload of a fetch that succeeded. *)
Definition delivered {P} (o : fetched P) : option P :=
  match o with
  | Response true (Json j) => Some j
  | _ => None
  end.

(** *** The integer fragment

    The numbers that are integers or [NaN], printed in decimal; [Number(s)]
    reads a trimmed, optionally signed run of digits, the empty string as 0.
    Used to run the screens on concrete payloads. *)

Inductive inum : Type := NaN | Int (z : Z).

Fixpoint digits (s : string) (acc : Z) : option Z :=
  match s with
  | EmptyString => Some acc
  | String c r =>
    let n := N_of_ascii c in
    if ((48 <=? n) && (n <=? 57))%N then digits r (10 * acc + Z.of_N (n - 48))%Z
    else None
  end.

Definition signed_digits (s : string) : inum :=
  match s with
  | EmptyString => Int 0
  | String c r =>
    let unsigned t :=
      match t with
      | EmptyString => NaN
      | _ => match digits t 0 with Some z => Int z | None => NaN end
      end in
    if (N_of_ascii c =? 45)%N then
      match unsigned r with Int z => Int (- z) | NaN => NaN end
    else if (N_of_ascii c =? 43)%N then unsigned r
    else unsigned s
  end.

Definition inum_show (n : inum) : string :=
  match n with NaN => "NaN" | Int z => show_Z z end.

(** A runtime that knows US dollars only. *)
Definition dollars (currency : string) (n : inum) : result string :=
  if String.eqb currency "USD" then
    match n with
    | NaN => Return "NaN"
    | Int z => Return ((if (z <? 0)%Z then "-$" else "$") ++ show_Z (Z.abs z) ++ ".00")
    end
  else Throw (Error ("Invalid currency code : " ++ currency)).

#[export] Instance inum_number : JsNumber inum := {
  num_isNaN n := match n with NaN => true | Int _ => false end;
  num_isZero n := match n with Int 0 => true | _ => false end;
  num_show := inum_show;
  num_json n := match n with NaN => "null" | Int z => show_Z z end;
  Number_of s := signed_digits (trim s);
  Intl_currency := dollars
}.

End Js.


(* ===================================================================== *)
(** ** [hooks/useApi.ts]: the transport hook *)
(* ===================================================================== *)

Module Transport.
Import Js.

(** The hook's two [useState] cells. *)
Record Api : Type := { loading : bool; error : option string }.

Definition idle : Api := {| loading := false; error := None |}.

(** A call of a state setter. *)
Inductive write : Type :=
| SetLoading (b : bool)
| SetError (e : option string).

Definition apply (s : Api) (w : write) : Api :=
  match w with
  | SetLoading b => {| loading := b; error := error s |}
  | SetError e => {| loading := loading s; error := e |}
  end.

Definition commit (ws : list write) (s : Api) : Api := fold_left apply ws s.

(** The values [setLoading] was called with, in order. *)
Fixpoint loading_writes (ws : list write) : list bool :=
  match ws with
  | [] => []
  | SetLoading b :: rest => b :: loading_writes rest
  | SetError _ :: rest => loading_writes rest
  end.

(** A computation that calls setters and then returns or throws. *)
Definition act (A : Type) : Type := (list write * result A)%type.

Definition tell (w : write) : act unit := ([w], Return tt).
Definition throw {A} (e : exn) : act A := ([], Throw e).
Definition lift {A} (r : result A) : act A := ([], r).

Definition seq {A B} (c : act A) (k : A -> act B) : act B :=
  match c with
  | (ws, Return a) => let (ws', r) := k a in ((ws ++ ws')%list, r)
  | (ws, Throw e) => (ws, Throw e)
  end.

(** [try { c } catch (e) { h e }] *)
Definition catch {A} (c : act A) (h : exn -> act A) : act A :=
  match c with
  | (ws, Throw e) => let (ws', r) := h e in ((ws ++ ws')%list, r)
  | done => done
  end.

(** [try { c } finally { f }] *)
Definition finally {A} (c : act A) (f : act unit) : act A :=
  let (ws, r) := c in
  match f with
  | (ws', Return _) => ((ws ++ ws')%list, r)
  | (ws', Throw e) => ((ws ++ ws')%list, Throw e)
  end.

Declare Scope act_scope.
Delimit Scope act_scope with act.
Notation "x <- c ;; k" := (seq c (fun x => k))
  (at level 61, c at next level, right associativity) : act_scope.
Notation "c ;; k" := (seq c (fun _ => k))
  (at level 61, right associativity) : act_scope.

(** What leaves for the network. *)
Record Request : Type := { method : string; url : string; payload : option string }.

Section Hook.
Context {number : Type} `{JsNumber number}.

(** [process.env.EXPO_PUBLIC_API_BASE || "http://localhost:8000"] *)
Variable API_BASE : string.

(** [API_BASE.replace(/\/$/, "")] *)
Fixpoint strip_slash (s : string) : string :=
  match s with
  | EmptyString => EmptyString
  | String c r =>
    match r with
    | EmptyString => if (N_of_ascii c =? 47)%N then EmptyString else s
    | _ => String c (strip_slash r)
    end
  end.

Definition base : string := strip_slash API_BASE.

(** [if (!res.ok) throw new Error(data?.detail?.message || JSON.stringify(data));
     return data] *)
Definition checked (r : bool * json number) : result (json number) :=
  let (ok, data) := r in
  if negb ok then
    Throw (Error (str_of (or_else (get_opt (get_opt (Some data) "detail") "message")
                                  (Some (JStr (stringify data))))))
  else Return data.

(** [e.message || "Request failed"] *)
Definition failure_text (e : exn) : string :=
  if str_truthy (message e) then message e else "Request failed".

(** The setters called before the [await]. *)
Definition started : act unit :=
  (tell (SetLoading true) ;; tell (SetError None))%act.

(** The rest of the call, once the fetch has settled as [o]. *)
Definition settled (o : fetched (json number)) : act (json number) :=
  finally
    (catch (lift (r <- awaited o ;; checked r)%js)
           (fun e => (tell (SetError (Some (failure_text e))) ;; throw e)%act))
    (tell (SetLoading false)).

Definition get_request (path : string) : Request :=
  {| method := "GET"; url := base ++ path; payload := None |}.

(** [body ? JSON.stringify(body) : undefined] *)
Definition post_request (path : string) (body : jsval number) : Request :=
  {| method := "POST"; url := base ++ path;
     payload := match body with
                | Some b => if truthy body then Some (stringify b) else None
                | None => None
                end |}.

(** [get(path)] whose fetch settles as [o]: the request, the setters called
    over the whole call, and what the promise settles to. *)
Definition get (path : string) (o : fetched (json number))
  : Request * act (json number) :=
  (get_request path, (started ;; settled o)%act).

Definition post (path : string) (body : jsval number) (o : fetched (json number))
  : Request * act (json number) :=
  (post_request path body, (started ;; settled o)%act).

End Hook.

End Transport.


(* ===================================================================== *)
(** ** [screens/ReportsScreen.tsx]: the customer report *)
(* ===================================================================== *)

Module Reports.
Import Js.

Section Screen.
Context {number : Type} `{JsNumber number}.
Variable API_BASE : string.

(** [cid], [report] (initially [null]) and the hook's cells. *)
Record Screen : Type := {
  cid : string;
  report : json number;
  api : Transport.Api
}.

Definition initial : Screen :=
  {| cid := "1001"; report := JNull; api := Transport.idle |}.

Definition setCid (t : string) (s : Screen) : Screen :=
  {| cid := t; report := report s; api := api s |}.

Definition path (s : Screen) : string := "/report/customer/" ++ cid s.

(** [load] up to its [await]: the hook has flagged the call, the request is
    on its way. *)
Definition load_start (s : Screen) : Screen * Transport.Request :=
  ({| cid := cid s; report := report s;
      api := Transport.commit (fst Transport.started) (api s) |},
   Transport.get_request API_BASE (path s)).

(** [load] from the [await] on: [setReport(data)], or the empty [catch]. *)
Definition load_settle (o : fetched (json number)) (s : Screen) : Screen :=
  let (ws, r) := Transport.settled o in
  let api' := Transport.commit ws (api s) in
  match r with
  | Return data => {| cid := cid s; report := data; api := api' |}
  | Throw _ => {| cid := cid s; report := report s; api := api' |}
  end.

(** A whole [load] whose fetch settles as [o]. *)
Definition load (o : fetched (json number)) (s : Screen) : Screen :=
  load_settle o (fst (load_start s)).

(** One [load] after the other, each settled before the next is pressed. *)
Definition loads (os : list (fetched (json number))) (s : Screen) : Screen :=
  fold_left (fun s o => load o s) os s.

End Screen.

End Reports.

(* ===================================================================== *)
(** ** [screens/ChatScreen.tsx]: the conversation *)
(* ===================================================================== *)

Module Chat.
Import Js.

Inductive Role : Type := user | assistant.

Record Msg : Type := { id : string; role : Role; text : string }.

(** [messages], [input] and [busy]. *)
Record Screen : Type := { messages : list Msg; input : string; busy : bool }.

Definition hello : Msg :=
  {| id := "hello"; role := assistant;
     text := "Hi! Type a query below (e.g., `top customers by revenue`)." |}.

Definition initial : Screen :=
  {| messages := [hello]; input := EmptyString; busy := false |}.

Definition setInput (t : string) (s : Screen) : Screen :=
  {| messages := messages s; input := t; busy := busy s |}.

(** [setMessages((m) => [...m, msg])] *)
Definition push (msg : Msg) (s : Screen) : Screen :=
  {| messages := (messages s ++ [msg])%list; input := input s; busy := busy s |}.

Definition setBusy (b : bool) (s : Screen) : Screen :=
  {| messages := messages s; input := input s; busy := b |}.

(** The POST to [/chat]; its body is
    [JSON.stringify({ message: trimmed, limit: 50 })]. *)
Definition chat_request (API_BASE trimmed : string) : Transport.Request :=
  {| Transport.method := "POST";
     Transport.url := API_BASE ++ "/chat";
     Transport.payload :=
       Some ("{" ++ quote "message" ++ ":" ++ quote trimmed ++ ","
                 ++ quote "limit" ++ ":" ++ show_Z 50 ++ "}") |}.

Section Send.
Context {number : Type} `{JsNumber number}.
Variable API_BASE : string.

(** [send(text)] up to its [await], at clock [now]: nothing on an empty
    trimmed text or while busy, else the user's message is appended, the
    input cleared, [busy] raised and the request issued. *)
Definition send_start (now : Z) (t : string) (s : Screen)
  : Screen * option Transport.Request :=
  let trimmed := trim t in
  if negb (str_truthy trimmed) || busy s then (s, None)
  else
    (setBusy true
       (setInput EmptyString
          (push {| id := show_Z now; role := user; text := trimmed |} s)),
     Some (chat_request API_BASE trimmed)).

(** The status was not a success: the text built from [json?.detail]. *)
Definition error_text (j : json number) : string :=
  let detail := get_opt (Some j) "detail" in
  let issues :=
    match get_opt detail "issues" with
    | Some (JArr items) => join nl items
    | _ => EmptyString
    end in
  let errMsg :=
    str_of (or_else (get_opt detail "message") (Some (JStr "Failed to query")))
    ++ (if str_truthy issues then nl ++ issues else EmptyString) in
  "⚠️ " ++ errMsg ++ nl ++ nl ++ "SQL:" ++ nl
    ++ str_of (nullish (get_opt detail "sql") (Some (JStr EmptyString))).

(** The payload is an error envelope [{detail: {message, issues?, sql?}}]:
    [message] is the string [m], [issues] when present an array of strings,
    [sql] when present a string. *)
Definition envelope (j : json number)
  (m : string) (issues : option (list string)) (sql : option string) : Prop :=
  let detail := get_opt (Some j) "detail" in
  get_opt detail "message" = Some (JStr m)
  /\ get_opt detail "issues" = option_map (fun l => JArr (map JStr l)) issues
  /\ get_opt detail "sql" = option_map JStr sql.

(** The status was a success: [pretty]. Reading [json.answer] throws when
    the payload is [null]. *)
Definition pretty (j : json number) : result string :=
  match get_opt (Some j) "rows" with
  | Some (JArr (row :: _)) =>
    (answer <- get (Some j) "answer" ;;
     sql <- get (Some j) "sql" ;;
     Return ("✅ " ++ str_of answer ++ nl ++ nl ++ "SQL:" ++ nl ++ str_of sql
               ++ nl ++ nl ++ "First row:" ++ nl ++ stringify_pretty row))%js
  | _ =>
    (answer <- get (Some j) "answer" ;;
     sql <- get (Some j) "sql" ;;
     Return ("ℹ️ " ++ str_of answer ++ nl ++ nl ++ "SQL:" ++ nl ++ str_of sql))%js
  end.

(** The [try] block from the [await] on: the assistant's message, unless
    something throws. *)
Definition answered (now : Z) (o : fetched (json number)) : result Msg :=
  (r <- awaited o ;;
   let (ok, j) := r : bool * json number in
   if negb ok then
     Return {| id := show_Z (now + 1); role := assistant; text := error_text j |}
   else
     t <- pretty j ;;
     Return {| id := show_Z (now + 1); role := assistant; text := t |})%js.

(** The [catch] block: [e?.message || "Network error"]. *)
Definition caught (now : Z) (e : exn) : Msg :=
  {| id := show_Z (now + 2); role := assistant;
     text := "⚠️ " ++ (if str_truthy (message e) then message e else "Network error") |}.

(** The message the [try] or the [catch] appends. *)
Definition reply (now : Z) (o : fetched (json number)) : Msg :=
  match answered now o with
  | Return m => m
  | Throw e => caught now e
  end.

(** [send] from the [await] on, at clock [now], the fetch settled as [o];
    [finally] lowers [busy]. *)
Definition send_settle (now : Z) (o : fetched (json number)) (s : Screen) : Screen :=
  setBusy false (push (reply now o) s).

(** *** The session: the screen and the requests in flight *)

Definition Session : Type := (Screen * list Transport.Request)%type.

Definition start : Session := (initial, []).

Inductive step : Session -> Session -> Prop :=
| step_type (t : string) s pending :
    step (s, pending) (setInput t s, pending)
| step_send (now : Z) (t : string) s pending :
    step (s, pending)
         (fst (send_start now t s),
          match snd (send_start now t s) with
          | Some r => (pending ++ [r])%list
          | None => pending
          end)
| step_settle (now : Z) (o : fetched (json number)) s r pending :
    step (s, r :: pending) (send_settle now o s, pending).

Inductive steps : Session -> Session -> Prop :=
| steps_refl x : steps x x
| steps_more x y z : steps x y -> step y z -> steps x z.

End Send.

(** *** A sample session *)

Definition sample_base : string := "http://localhost:8000".

(** The greeting screen after one question was sent. *)
Definition asked : Session :=
  let sent := send_start sample_base 1700000000000 "price for item_id 30310" initial in
  (fst sent, match snd sent with Some r => [r] | None => [] end).

(** Two rows of customers, and an answer that lacks its [answer]. *)
Definition top_customers : json inum :=
  JObj [("answer", JStr "Top customers"); ("sql", JStr "SELECT 1");
        ("rows", JArr [JObj [("cid", JNum (Int 1000001)); ("revenue", JNum (Int 500))];
                       JObj [("cid", JNum (Int 1000002)); ("revenue", JNum (Int 20))]])].

Definition no_answer : json inum :=
  JObj [("sql", JStr "SELECT 1"); ("rows", JArr [])].

(** *** The shape of a log *)

Definition other (r : Role) : Role :=
  match r with user => assistant | assistant => user end.

Definition role_eqb (a b : Role) : bool :=
  match a, b with
  | user, user | assistant, assistant => true
  | _, _ => false
  end.

(** The roles of [log] alternate, the first being [r]. *)
Fixpoint alternates (r : Role) (log : list Msg) : bool :=
  match log with
  | [] => true
  | m :: rest => role_eqb (role m) r && alternates (other r) rest
  end.

End Chat.


(* ===================================================================== *)
(** ** [screens/PricesScreen.tsx]: the price list and its pager *)
(* ===================================================================== *)

Module Prices.
Import Js.

Record PriceRow : Type := { item_id : Z; name : string; baseprice : Q }.

(** The body of [/pricelist] as the screen types it: [rows] and [row_count],
    either of which may be missing, and the [detail.message] of a refusal. *)
Record Listing : Type := {
  rows : option (list PriceRow);
  row_count : option Z;
  detail_message : option string
}.

(** The parsed body: a listing, or [None] for the JSON [null]. *)
Definition payload : Type := option Listing.

(** [data], [total], [q], [loading] and [page]. *)
Record Screen : Type := {
  data : list PriceRow;
  total : Z;
  q : string;
  loading : bool;
  page : Z
}.

Definition initial : Screen :=
  {| data := []; total := 0; q := EmptyString; loading := false; page := 0 |}.

Definition limit : Z := 25.

(** [const offset = page * limit], fixed by the render. *)
Definition offset (s : Screen) : Z := page s * limit.

(** [Math.ceil(x)] *)
Definition Math_ceil (x : Q) : Z := Qceiling x.

(** [pages = Math.max(1, Math.ceil(total / limit))]; the quotient is taken
    exactly. The code divides doubles, and gives this page count for every
    row count up to 2^53: there [total / 25] is below 2^49, where it is an
    integer (and then the double quotient is exact) or at least 1/25 away
    from the integers, which is more than half the spacing 2^-4 of the
    doubles there, so rounding does not reach an integer. Beyond, the double
    quotient can fall onto the integer below and the code count one page
    less. *)
Definition pages (s : Screen) : Z :=
  Z.max 1 (Math_ceil (Qdiv (inject_Z (total s)) (inject_Z limit))).

Definition setQ (t : string) (s : Screen) : Screen :=
  {| data := data s; total := total s; q := t; loading := loading s; page := page s |}.

Definition setLoading (b : bool) (s : Screen) : Screen :=
  {| data := data s; total := total s; q := q s; loading := b; page := page s |}.

Definition setPage (f : Z -> Z) (s : Screen) : Screen :=
  {| data := data s; total := total s; q := q s; loading := loading s;
     page := f (page s) |}.

Definition setListing (rows : list PriceRow) (count : Z) (s : Screen) : Screen :=
  {| data := rows; total := count; q := q s; loading := loading s; page := page s |}.

(** [URLSearchParams.set] *)
Fixpoint params_set (k v : string) (ps : list (string * string)) : list (string * string) :=
  match ps with
  | [] => [(k, v)]
  | (k', v') :: rest =>
    if String.eqb k k' then (k, v) :: rest else (k', v') :: params_set k v rest
  end.

Fixpoint params_get (k : string) (ps : list (string * string)) : option string :=
  match ps with
  | [] => None
  | (k', v) :: rest => if String.eqb k k' then Some v else params_get k rest
  end.

(** A GET of [/pricelist] with its query parameters. *)
Record Request : Type := { path : string; params : list (string * string) }.

Section Screen.
Variable API_BASE : string.

(** The parameters [load] builds from the [offset] and [q] of the render [c]
    it was created in. *)
Definition query (c : Screen) : list (string * string) :=
  let params := params_set "limit" (show_Z limit) [] in
  let params := params_set "offset" (show_Z (offset c)) params in
  if str_truthy (trim (q c)) then params_set "q" (trim (q c)) params else params.

(** [load] of the render [c] up to its [await], run on the state [s]. *)
Definition load_start (c s : Screen) : Screen * Request :=
  (setLoading true s, {| path := API_BASE ++ "/pricelist"; params := query c |}).

(** The [try] block from the [await] on: the rows and the count to store. *)
Definition received (o : fetched payload) : result (list PriceRow * Z) :=
  (r <- awaited o ;;
   let (ok, json) := r : bool * payload in
   if negb ok then
     Throw (Error (match json with
                   | Some {| detail_message := Some m |} =>
                     if str_truthy m then m else "Failed to load pricelist"
                   | _ => "Failed to load pricelist"
                   end))
   else
     match json with
     | None => Throw (cannot_read "null" "rows")
     | Some l =>
       Return (match rows l with Some rs => rs | None => [] end,
               match row_count l with Some n => n | None => 0 end)
     end)%js.

(** [load] from the [await] on: the listing is stored, or emptied in the
    [catch]; [finally] the spinner stops. *)
Definition load_settle (o : fetched payload) (s : Screen) : Screen :=
  match received o with
  | Return (rs, n) => setLoading false (setListing rs n s)
  | Throw _ => setLoading false (setListing [] 0 s)
  end.

(** [useEffect(() => { load(); }, [page])] after the render [new] replaced
    [old]: the [load] of the new render runs when [page] changed. *)
Definition page_effect (old new : Screen) : Screen * list Request :=
  if (page old =? page new)%Z then (new, [])
  else let (s, r) := load_start new new in (s, [r]).

(** The first render: the effect runs once. *)
Definition mounted : Screen * list Request :=
  let (s, r) := load_start initial initial in (s, [r]).

(** [() => { setPage(0); load(); }] of the render [s], then the effect. The
    [load] called here is the one of [s]: it reads the [offset] of [s]. *)
Definition runSearch (s : Screen) : Screen * list Request :=
  let s1 := setPage (fun _ => 0) s in
  let (s2, r) := load_start s s1 in
  let (s3, rs) := page_effect s s2 in
  (s3, r :: rs).

(** [disabled={page <= 0}] *)
Definition prev_disabled (s : Screen) : bool := (page s <=? 0)%Z.

(** [disabled={(page + 1) >= pages}] *)
Definition next_disabled (s : Screen) : bool := (page s + 1 >=? pages s)%Z.

(** [setPage((p) => Math.max(0, p - 1))], then the effect. *)
Definition goPrev (s : Screen) : Screen * list Request :=
  page_effect s (setPage (fun p => Z.max 0 (p - 1)) s).

(** [setPage((p) => p + 1)], then the effect. *)
Definition goNext (s : Screen) : Screen * list Request :=
  page_effect s (setPage (fun p => p + 1) s).

(** *** The session: the screen and the requests in flight *)

Definition Session : Type := (Screen * list Request)%type.

Definition issue (pending : list Request) (x : Screen * list Request) : Session :=
  (fst x, (pending ++ snd x)%list).

Inductive step : Session -> Session -> Prop :=
| step_type (t : string) s pending :
    step (s, pending) (setQ t s, pending)
| step_search s pending :
    step (s, pending) (issue pending (runSearch s))
| step_prev s pending :
    prev_disabled s = false ->
    step (s, pending) (issue pending (goPrev s))
| step_next s pending :
    next_disabled s = false ->
    step (s, pending) (issue pending (goNext s))
| step_settle (o : fetched payload) s before r after :
    step (s, (before ++ r :: after)%list) (load_settle o s, (before ++ after)%list).

Inductive reachable : Session -> Prop :=
| reach_mount : reachable mounted
| reach_step x y : reachable x -> step x y -> reachable y.

End Screen.

(** *** What the pager and the rows display *)

(** [Page {pages === 0 ? 0 : page + 1} / {pages}] *)
Definition pager_label (s : Screen) : string :=
  "Page " ++ show_Z (if (pages s =? 0)%Z then 0 else page s + 1)
          ++ " / " ++ show_Z (pages s).

(** The images under [assets/icons]. *)
Inductive asset : Type :=
| shirt_png | pants_png | shoes_png | jacket_png
| dress_png | cap_png | washing_png | default_png.

(** [ICONS_BY_NAME], in the order its keys are written. *)
Definition ICONS_BY_NAME : list (string * asset) :=
  [ ("shirt", shirt_png); ("pants", pants_png); ("shoes", shoes_png);
    ("jacket", jacket_png); ("blazer", jacket_png); ("dress", dress_png);
    ("cap", cap_png); ("washing", washing_png); ("default", default_png) ].

(** [ICONS_BY_NAME[k]] *)
Fixpoint icon_of (k : string) (icons : list (string * asset)) : option asset :=
  match icons with
  | [] => None
  | (k', a) :: rest => if String.eqb k k' then Some a else icon_of k rest
  end.

Section Icons.
(** [String.prototype.toLowerCase], the engine's. *)
Variable toLowerCase : string -> string.

(** [getIconForName(name)]; [None] is a name left out. *)
Definition getIconForName (name : option string) : asset :=
  match name with
  | None => default_png
  | Some n =>
    if negb (str_truthy n) then default_png
    else
      let key := toLowerCase n in
      match find (fun k => includes k key) (map fst ICONS_BY_NAME) with
      | Some k =>
        match icon_of k ICONS_BY_NAME with
        | Some a => a
        | None => default_png
        end
      | None => default_png
      end
  end.

End Icons.

(** *** Sample states *)

Definition shirt : PriceRow :=
  {| item_id := 30310; name := "Shirt"; baseprice := (7 # 2)%Q |}.

(** A full answer: one page of a list of 100 rows. *)
Definition hundred : fetched payload :=
  Response true
    (Json (Some {| rows := Some [shirt]; row_count := Some 100;
                   detail_message := None |})).

(** The first, second and third page of that list. *)
Definition on_page (n : Z) : Screen :=
  {| data := [shirt]; total := 100; q := EmptyString; loading := false; page := n |}.

Definition first_of_four : Screen := on_page 0.

(** The third page, the term [ shirt] typed in. *)
Definition third_page : Screen := setQ " shirt" (on_page 2).

(** The screen after this run: the list is mounted and its first request
    answers 100 rows; the user presses next, and the request for the second
    page is rejected. *)
Definition stranded : Screen :=
  {| data := []; total := 0; q := EmptyString; loading := false; page := 1 |}.

End Prices.

(* ===================================================================== *)
(** ** [utils/formatters.ts] *)
(* ===================================================================== *)

Module Formatters.
Import Js.

Section Fmt.
Context {number : Type} `{JsNumber number}.

(** [number | string | null | undefined] *)
Inductive amount : Type :=
| Null
| Undefined
| Str (s : string)
| Num (n : number).

(** [new Intl.NumberFormat(...).format(val)] inside its [try], [String(val)]
    in the [catch]. *)
Definition localized (currency : string) (val : number) : result string :=
  try_catch (Intl_currency currency val) (fun _ => Return (num_show val)).

(** [fmtCurrency(n, currency = "USD")]: [None] is the argument left out. *)
Definition fmtCurrency (n : amount) (currency : option string) : result string :=
  let currency := match currency with Some c => c | None => "USD" end in
  match n with
  | Null | Undefined => Return "—"
  | Str s =>
    if negb (str_truthy s) then Return "—"
    else
      let val := Number_of s in
      if num_isNaN val then Return s else localized currency val
  | Num val =>
    if num_isNaN val then Return (num_show val) else localized currency val
  end.

End Fmt.
Arguments amount number : clear implicits.

(** *** [truncate]

    [s.length] and [s.slice] count UTF-16 code units: here a string is the
    list of its code units, and lengths are integers. *)

Definition ustring : Type := list N.

(** The one code unit of the horizontal ellipsis. *)
Definition ellipsis : N := 8230.

(** [s.slice(0, stop)] *)
Definition slice_to (stop : Z) (s : ustring) : ustring :=
  let n := Z.of_nat (List.length s) in
  let k := if (stop <? 0)%Z then Z.max (n + stop) 0 else Z.min stop n in
  firstn (Z.to_nat k) s.

(** [truncate(s, len = 120)]; [None] is the length left out. *)
Definition truncate (s : ustring) (len : option Z) : ustring :=
  let len := match len with Some l => l | None => 120 end in
  match s with
  | [] => []
  | _ =>
    if (Z.of_nat (List.length s) >? len)%Z
    then (slice_to (len - 1) s ++ [ellipsis])%list
    else s
  end.

End Formatters.


(* ===================================================================== *)
(** ** Properties *)
(* ===================================================================== *)

Import Js.

(** *** Strings *)

Lemma str_truthy_true (s : string) : s <> EmptyString -> str_truthy s = true.
Proof. destruct s; [congruence | reflexivity]. Qed.

Lemma str_truthy_false (s : string) : str_truthy s = false <-> s = EmptyString.
Proof. destruct s; cbn; split; congruence. Qed.

Lemma append_empty_r (s : string) : s ++ EmptyString = s.
Proof. induction s as [|c s IH]; cbn; [reflexivity | now rewrite IH]. Qed.

Lemma append_assoc (a b c : string) : (a ++ b) ++ c = a ++ b ++ c.
Proof. induction a as [|x a IH]; cbn; [reflexivity | now rewrite IH]. Qed.

Lemma occurs_in_here (sub post : string) : occurs_in sub (sub ++ post).
Proof. exists EmptyString, post. reflexivity. Qed.

Lemma occurs_in_later (sub pre s : string) :
  occurs_in sub s -> occurs_in sub (pre ++ s).
Proof.
  intros (a & b & ->). exists (pre ++ a), b. now rewrite append_assoc.
Qed.

Lemma occurs_in_earlier (sub s post : string) :
  occurs_in sub s -> occurs_in sub (s ++ post).
Proof.
  intros (a & b & ->). exists a, (b ++ post). now rewrite !append_assoc.
Qed.

Lemma occurs_in_empty (s : string) : occurs_in EmptyString s.
Proof. exists EmptyString, s. reflexivity. Qed.

Create HintDb occurs.
#[local] Hint Resolve occurs_in_here occurs_in_later occurs_in_earlier
  occurs_in_empty : occurs.

(** *** The transport hook *)

Section TransportFacts.
Context {number : Type} `{JsNumber number}.
Import Transport.

(** Whatever the fetch does, the rest of the call writes an error at most
    once and lowers [loading] last. *)
Lemma settled_writes (o : fetched (json number)) :
  fst (settled o) = [SetLoading false]
  \/ exists e, snd (settled o) = Throw e
             /\ fst (settled o) = [SetError (Some (failure_text e)); SetLoading false].
Proof.
  destruct o as [e | ok [e | j]]; cbn.
  - right. now exists e.
  - right. now exists e.
  - destruct ok; cbn; [now left | right; eauto].
Qed.

Lemma settled_throws_on_failure (o : fetched (json number)) :
  failed o = true ->
  exists e, snd (settled o) = Throw e
         /\ fst (settled o) = [SetError (Some (failure_text e)); SetLoading false].
Proof.
  destruct o as [e | ok [e | j]]; cbn; eauto.
  destruct ok; cbn; [discriminate | eauto].
Qed.

End TransportFacts.

(** C9. A call of [get] or [post] calls [setLoading] exactly twice, with
    [true] before the fetch and with [false] on the way out, whatever the
    fetch does (it resolves, answers with a failure status, rejects, or its
    payload is not JSON); it starts by clearing [error]; and once the call
    is over [loading] is [false]. *)
Theorem call_toggles_loading_once :
  forall (number : Type) (N : JsNumber number) (API_BASE path : string)
         (body : jsval number) (o : fetched (json number)) (s : Transport.Api),
    let called := fst (snd (Transport.get API_BASE path o)) in
    let posted := fst (snd (Transport.post API_BASE path body o)) in
    (Transport.loading_writes called = [true; false]
     /\ (exists rest, called = Transport.SetLoading true :: Transport.SetError None :: rest
                      /\ fst Transport.started
                         = [Transport.SetLoading true; Transport.SetError None])
     /\ Transport.commit (fst Transport.started) s
        = {| Transport.loading := true; Transport.error := None |}
     /\ Transport.loading (Transport.commit called s) = false)
    /\ (Transport.loading_writes posted = [true; false]
        /\ (exists rest, posted = Transport.SetLoading true :: Transport.SetError None :: rest)
        /\ Transport.loading (Transport.commit posted s) = false).
Proof.
  intros number N API_BASE path body o s. cbn zeta.
  unfold Transport.get, Transport.post. cbn [fst snd].
  destruct (settled_writes o) as [E | (e & Et & E)];
    destruct (Transport.settled o) as [ws r]; cbn [fst snd] in *; subst ws.
  - destruct r; cbn; repeat split; eauto.
  - subst r. cbn. repeat split; eauto.
Qed.

(** *** The report screen *)

(** C3. When a report load fails (the fetch is rejected, its payload is not
    JSON, or the status is a failure) the stored report and the customer id
    are as before; the hook holds an error text and [loading] is down. A
    failed reload after a successful load still holds the loaded report. *)
Theorem failed_load_keeps_report :
  forall (number : Type) (N : JsNumber number) (API_BASE : string)
         (o : fetched (json number)) (s : Reports.Screen),
    failed o = true ->
    Reports.report (Reports.load API_BASE o s) = Reports.report s
    /\ Reports.cid (Reports.load API_BASE o s) = Reports.cid s
    /\ (exists m, Reports.api (Reports.load API_BASE o s)
                  = {| Transport.loading := false; Transport.error := Some m |})
    /\ (forall data : json number,
          Reports.report
            (Reports.load API_BASE o
               (Reports.load API_BASE (Response true (Json data)) s)) = data).
Proof.
  intros number N API_BASE o s Hf.
  assert (K : forall s0 : Reports.Screen,
             Reports.report (Reports.load API_BASE o s0) = Reports.report s0
             /\ Reports.cid (Reports.load API_BASE o s0) = Reports.cid s0
             /\ exists m, Reports.api (Reports.load API_BASE o s0)
                          = {| Transport.loading := false; Transport.error := Some m |}).
  { intros s0. unfold Reports.load, Reports.load_settle.
    destruct (settled_throws_on_failure o Hf) as (e & Er & Ew).
    destruct (Transport.settled o) as [ws r]. cbn [fst snd] in *. subst ws r.
    cbn. repeat split. eauto. }
  destruct (K s) as (K1 & K2 & K3). repeat split; trivial.
  intros data. destruct (K (Reports.load API_BASE (Response true (Json data)) s)) as (-> & _).
  reflexivity.
Qed.

Lemma failed_load_keeps_report_witness :
  failed (Rejected (Error "Network request failed") : fetched (json inum)) = true
  /\ Reports.report
       (Reports.load "http://localhost:8000"
          (Rejected (Error "Network request failed"))
          (Reports.load "http://localhost:8000"
             (Response true (Json (JObj [("summary", JObj [("orders", JNum (Int 3))])])))
             Reports.initial))
     = JObj [("summary", JObj [("orders", JNum (Int 3))])].
Proof.
  split; [reflexivity |].
  apply (failed_load_keeps_report inum inum_number "http://localhost:8000"
           (Rejected (Error "Network request failed")) Reports.initial).
  reflexivity.
Defined.

(** *** The chat screen *)

Section ChatFacts.
Context {number : Type} `{JsNumber number}.
Variable API_BASE : string.
Import Chat.

Lemma reply_is_assistant (now : Z) (o : fetched (json number)) :
  role (reply now o) = assistant.
Proof.
  unfold reply, answered.
  destruct o as [e | ok [e | j]]; cbn; trivial.
  destruct ok; cbn; trivial.
  destruct (pretty j); reflexivity.
Qed.



(** Turns are serialized: [busy] holds exactly while one request is in
    flight, and never more than one is. *)
Lemma one_request_in_flight (x : Session) :
  steps API_BASE start x ->
  (busy (fst x) = false /\ snd x = []) \/ (busy (fst x) = true /\ exists r, snd x = [r]).
Proof.
  intros Hrun. remember start as x0 eqn:E0.
  induction Hrun as [x | x y z _ IH Hs]; subst.
  - left. split; reflexivity.
  - specialize (IH eq_refl). destruct Hs as [t s p | now t s p | now o s r p]; cbn [fst snd] in *.
    + exact IH.
    + unfold send_start.
      destruct IH as [(Hb & ->) | (Hb & r & ->)]; rewrite Hb.
      * destruct (str_truthy (trim t)); cbn; [right; eauto | left; auto].
      * rewrite orb_true_r. cbn. right; eauto.
    + destruct IH as [(_ & E) | (_ & r' & E)]; [discriminate |].
      injection E as -> ->. left. split; reflexivity.
Qed.

End ChatFacts.



(** C8. A submission whose trimmed text is empty, or one made while the
    screen is busy, changes nothing (log, input and [busy] are as before) and
    issues no request. *)
Theorem send_ignored :
  forall (API_BASE : string) (now : Z) (t : string) (s : Chat.Screen),
    trim t = EmptyString \/ Chat.busy s = true ->
    Chat.send_start API_BASE now t s = (s, None).
Proof.
  intros API_BASE now t s [Ht | Hb]; unfold Chat.send_start.
  - now rewrite Ht.
  - rewrite Hb. now rewrite orb_true_r.
Qed.

Lemma send_ignored_witness :
  (trim "   " = EmptyString \/ Chat.busy Chat.initial = true)
  /\ Chat.send_start "http://localhost:8000" 1700000000000 "   " Chat.initial
     = (Chat.initial, None).
Proof.
  split.
  - left. reflexivity.
  - apply (send_ignored "http://localhost:8000" 1700000000000 "   " Chat.initial).
    left. reflexivity.
Defined.

Section ChatTexts.
Context {number : Type} `{JsNumber number}.

Lemma join_strings (sep : string) (l : list string) :
  join sep (map (@JStr number) l) = String.concat sep l.
Proof.
  unfold join. f_equal. rewrite map_map. cbn.
  induction l as [|x l IH]; cbn; [reflexivity | now rewrite IH].
Qed.

Lemma occurs_in_self (s : string) : occurs_in s s.
Proof. exists EmptyString, EmptyString. cbn. now rewrite append_empty_r. Qed.

(** The text of a refusal, read off an envelope. *)
Lemma error_text_of_envelope (j : json number) m issues sql :
  Chat.envelope j m issues sql ->
  Chat.error_text j
  = "⚠️ " ++ ((if str_truthy m then m else "Failed to query")
              ++ match issues with
                 | Some l =>
                   if str_truthy (String.concat nl l)
                   then nl ++ String.concat nl l else EmptyString
                 | None => EmptyString
                 end)
      ++ nl ++ nl ++ "SQL:" ++ nl
      ++ match sql with Some q => q | None => EmptyString end.
Proof.
  intros (Em & Ei & Es). unfold Chat.error_text. cbn zeta.
  rewrite Em, Ei, Es. f_equal. f_equal; [f_equal |].
  - unfold or_else. cbn. now destruct (str_truthy m).
  - destruct issues as [l|]; cbn; [now rewrite join_strings | reflexivity].
  - do 4 f_equal. now destruct sql.
Qed.

End ChatTexts.

(** C5. When the chat request comes back with a failure status and an error
    envelope, one assistant message is appended; its text is the warning
    marker, the backend's message, a new line and the issues joined by new
    lines when there are any, and under the heading [SQL:] the attempted
    query when the envelope has one and nothing when it has none. The text
    is made of the envelope's three fields only: whatever else the payload
    carries, rows included, leaves no trace in it. *)
Theorem refusal_text :
  forall (number : Type) (N : JsNumber number) (now : Z) (j : json number)
         (m : string) (issues : option (list string)) (sql : option string)
         (s : Chat.Screen),
    Chat.envelope j m issues sql ->
    exists a,
      Chat.messages (Chat.send_settle now (Response false (Json j)) s)
      = (Chat.messages s ++ [a])%list
      /\ Chat.role a = Chat.assistant
      /\ Chat.text a
         = "⚠️ " ++ ((if str_truthy m then m else "Failed to query")
                     ++ match issues with
                        | Some l =>
                          if str_truthy (String.concat nl l)
                          then nl ++ String.concat nl l else EmptyString
                        | None => EmptyString
                        end)
             ++ nl ++ nl ++ "SQL:" ++ nl
             ++ match sql with Some q => q | None => EmptyString end
      /\ occurs_in "⚠️" (Chat.text a)
      /\ occurs_in m (Chat.text a)
      /\ (forall l, issues = Some l -> occurs_in (String.concat nl l) (Chat.text a))
      /\ (forall q, sql = Some q -> occurs_in q (Chat.text a))
      /\ (sql = None -> exists before, Chat.text a = before ++ "SQL:" ++ nl)
      /\ (forall j' : json number,
            Chat.envelope j' m issues sql -> Chat.error_text j' = Chat.text a).
Proof.
  intros number N now j m issues sql s He.
  pose proof (error_text_of_envelope j m issues sql He) as Et.
  exists (Chat.reply now (Response false (Json j))).
  assert (Er : Chat.text (Chat.reply now (Response false (Json j))) = Chat.error_text j)
    by reflexivity.
  split; [reflexivity |]. split; [reflexivity |].
  rewrite Er, Et. split; [reflexivity |].
  split; [| split; [| split; [| split; [| split]]]].
  - exists EmptyString. eexists. reflexivity.
  - apply occurs_in_later. apply occurs_in_earlier.
    destruct (str_truthy m) eqn:Tm.
    + apply occurs_in_here.
    + apply str_truthy_false in Tm. subst m. apply occurs_in_empty.
  - intros l ->. apply occurs_in_later. apply occurs_in_earlier.
    apply occurs_in_later.
    destruct (str_truthy (String.concat nl l)) eqn:Tl.
    + apply occurs_in_later, occurs_in_self.
    + apply str_truthy_false in Tl. rewrite Tl. apply occurs_in_empty.
  - intros q ->. do 6 apply occurs_in_later. apply occurs_in_self.
  - intros ->. eexists. rewrite append_empty_r.
    rewrite <- !append_assoc. reflexivity.
  - intros j' He'. now apply error_text_of_envelope.
Qed.

Lemma refusal_text_witness :
  Chat.envelope
    (JObj [("detail", JObj [("message", JStr "unknown table");
                            ("issues", JArr [@JStr inum "table X not allowed"])])])
    "unknown table" (Some ["table X not allowed"]) None
  /\ exists a,
       Chat.messages
         (Chat.send_settle 1700000000200
            (Response false
               (Json (JObj [("detail", JObj [("message", JStr "unknown table");
                                             ("issues", JArr [@JStr inum "table X not allowed"])])])))
            Chat.initial)
       = [Chat.hello; a]
       /\ Chat.text a
          = "⚠️ unknown table" ++ nl ++ "table X not allowed" ++ nl ++ nl ++ "SQL:" ++ nl.
Proof.
  assert (He : Chat.envelope
                 (JObj [("detail", JObj [("message", JStr "unknown table");
                                         ("issues", JArr [@JStr inum "table X not allowed"])])])
                 "unknown table" (Some ["table X not allowed"]) None)
    by (repeat split).
  split; [exact He |].
  destruct (refusal_text inum inum_number 1700000000200 _ _ _ _ Chat.initial He)
    as (a & Hlog & _ & Htext & _).
  exists a. split; [exact Hlog | exact Htext].
Defined.

(** *** Transport failures *)

(** C6, as the code has it. When the fetch is rejected or its payload is not
    JSON, the chat appends the warning marker followed by the message of the
    exception that was thrown, and the words [Network error] only when that
    message is empty; the hook stores the exception's message as its error,
    and [Request failed] only when that message is empty. *)
Theorem transport_failure_shows_exception :
  forall (number : Type) (N : JsNumber number) (now : Z) (e : exn) (ok : bool)
         (s : Chat.Screen) (api : Transport.Api),
    let shown := "⚠️ " ++ (if str_truthy (message e) then message e else "Network error") in
    let stored := if str_truthy (message e) then message e else "Request failed" in
    (exists a,
       Chat.text a = shown
       /\ Chat.messages (Chat.send_settle (number := number) now (Rejected e) s)
          = (Chat.messages s ++ [a])%list
       /\ Chat.messages (Chat.send_settle (number := number) now (Response ok (NotJson e)) s)
          = (Chat.messages s ++ [a])%list)
    /\ Transport.error (Transport.commit (fst (Transport.settled (number := number) (Rejected e))) api)
       = Some stored
    /\ Transport.error
         (Transport.commit (fst (Transport.settled (number := number) (Response ok (NotJson e)))) api)
       = Some stored
    /\ occurs_in (message e) shown
    /\ occurs_in (message e) stored.
Proof.
  intros number N now e ok s api shown stored.
  split; [| split; [| split; [| split]]].
  - exists (Chat.caught now e). repeat split.
  - reflexivity.
  - reflexivity.
  - unfold shown. apply occurs_in_later.
    destruct (str_truthy (message e)) eqn:T.
    + apply occurs_in_self.
    + apply str_truthy_false in T. rewrite T. apply occurs_in_empty.
  - unfold stored. destruct (str_truthy (message e)) eqn:T.
    + apply occurs_in_self.
    + apply str_truthy_false in T. rewrite T. apply occurs_in_empty.
Qed.

(** C6 does not hold as stated: a rejected fetch whose exception says
    [Failed to fetch] is shown to the user with exactly these words, in the
    chat and in the hook's error, not with a generic text. *)
Lemma exception_text_reaches_user :
  Chat.messages
    (Chat.send_settle (number := inum) 1700000000200
       (Rejected (Error "Failed to fetch")) Chat.initial)
  = [Chat.hello;
     {| Chat.id := "1700000000202"; Chat.role := Chat.assistant;
        Chat.text := "⚠️ Failed to fetch" |}]
  /\ "⚠️ Failed to fetch" <> "⚠️ Network error"
  /\ occurs_in "Failed to fetch" "⚠️ Failed to fetch"
  /\ Reports.api
       (Reports.load (number := inum) "http://localhost:8000"
          (Rejected (Error "Failed to fetch")) Reports.initial)
     = {| Transport.loading := false; Transport.error := Some "Failed to fetch" |}.
Proof.
  split; [reflexivity |]. split; [discriminate |]. split; [| reflexivity].
  exists "⚠️ ", EmptyString. reflexivity.
Qed.

(** *** The price list *)

Section PricesFacts.
Variable API_BASE : string.
Import Prices.

Lemma page_effect_screen (old new : Screen) :
  page (fst (page_effect API_BASE old new)) = page new
  /\ total (fst (page_effect API_BASE old new)) = total new.
Proof. unfold page_effect. destruct (page old =? page new)%Z; split; reflexivity. Qed.

Lemma load_settle_page (o : fetched payload) (s : Screen) :
  page (load_settle o s) = page s.
Proof. unfold load_settle. destruct (received o) as [[rs n] | e]; reflexivity. Qed.

Lemma ceil_of_count (t : Z) :
  Math_ceil (Qdiv (inject_Z t) (inject_Z limit)) = - (- t / 25).
Proof. unfold Math_ceil, Qceiling, limit. cbn. now rewrite Z.mul_1_r. Qed.

(** [pages] is the least count of pages of 25 that hold [total] rows, and at
    least one. *)
Lemma pages_least (s : Screen) :
  1 <= pages s
  /\ total s <= limit * pages s
  /\ forall n, 1 <= n -> total s <= limit * n -> pages s <= n.
Proof.
  unfold pages. rewrite ceil_of_count. unfold limit.
  repeat split; try intros n Hn Ht; Z.div_mod_to_equations; lia.
Qed.

Lemma pages_closed_form (s : Screen) :
  pages s = Z.max 1 ((total s + 24) / 25).
Proof.
  unfold pages. rewrite ceil_of_count. Z.div_mod_to_equations. lia.
Qed.

Lemma runSearch_page (s : Screen) : page (fst (runSearch API_BASE s)) = 0.
Proof.
  unfold runSearch, page_effect, load_start. cbn [fst snd].
  destruct (page s =? _)%Z; reflexivity.
Qed.

(** No step takes [page] below zero. *)
Lemma page_never_negative (x : Session) :
  reachable API_BASE x -> 0 <= page (fst x).
Proof.
  induction 1 as [| x y _ IH Hs].
  - cbn. lia.
  - destruct Hs as [t s p | s p | s p Hd | s p Hd | o s b r a];
      unfold issue; cbn [fst] in *.
    + exact IH.
    + rewrite runSearch_page. lia.
    + unfold goPrev. rewrite (proj1 (page_effect_screen _ _)). cbn [page setPage]. lia.
    + unfold goNext. rewrite (proj1 (page_effect_screen _ _)). cbn [page setPage]. lia.
    + now rewrite load_settle_page.
Qed.

(** What [runSearch] sends: the request of the render it was pressed in,
    and, when that render was not on the first page, a second one from the
    effect of the page change. *)
Lemma runSearch_requests (s : Screen) :
  page (fst (runSearch API_BASE s)) = 0
  /\ snd (runSearch API_BASE s)
     = (if (page s =? 0)%Z
        then [ {| path := API_BASE ++ "/pricelist"; params := query s |} ]
        else [ {| path := API_BASE ++ "/pricelist"; params := query s |};
               {| path := API_BASE ++ "/pricelist";
                  params := query (setPage (fun _ => 0) s) |} ])
  /\ params_get "limit" (query s) = Some "25"
  /\ params_get "offset" (query s) = Some (show_Z (page s * 25))
  /\ params_get "q" (query s)
     = (if str_truthy (trim (q s)) then Some (trim (q s)) else None).
Proof.
  unfold runSearch, page_effect, load_start, query, offset, limit. cbn.
  destruct (page s =? 0)%Z; destruct (str_truthy (trim (q s))); cbn; repeat split.
Qed.

End PricesFacts.

(** C4. After a search request that fails (rejected fetch, payload that is
    not JSON, or failure status) the list is empty and the count is zero,
    whatever was shown before; the term and the page are kept and the spinner
    is off. *)
Theorem failed_search_empties :
  forall (o : fetched Prices.payload) (s : Prices.Screen),
    failed o = true ->
    Prices.load_settle o s
    = {| Prices.data := []; Prices.total := 0; Prices.q := Prices.q s;
         Prices.loading := false; Prices.page := Prices.page s |}.
Proof.
  intros o s Hf. unfold Prices.load_settle, Prices.received.
  destruct o as [e | ok [e | j]]; cbn in *; trivial.
  destruct ok; [discriminate | reflexivity].
Qed.

Lemma failed_search_empties_witness :
  failed (Response false
            (Json (Some {| Prices.rows := None; Prices.row_count := None;
                           Prices.detail_message := Some "bad offset" |}))) = true
  /\ Prices.load_settle
       (Response false
          (Json (Some {| Prices.rows := None; Prices.row_count := None;
                         Prices.detail_message := Some "bad offset" |})))
       {| Prices.data := [Prices.shirt]; Prices.total := 100; Prices.q := "shirt";
          Prices.loading := true; Prices.page := 1 |}
     = {| Prices.data := []; Prices.total := 0; Prices.q := "shirt";
          Prices.loading := false; Prices.page := 1 |}.
Proof.
  split; [reflexivity |].
  apply (failed_search_empties
           (Response false
              (Json (Some {| Prices.rows := None; Prices.row_count := None;
                             Prices.detail_message := Some "bad offset" |})))
           {| Prices.data := [Prices.shirt]; Prices.total := 100; Prices.q := "shirt";
              Prices.loading := true; Prices.page := 1 |}).
  reflexivity.
Defined.

(** A success status with the JSON [null] as payload ends in the [catch] too. *)
Lemma null_listing_empties (s : Prices.Screen) :
  Prices.load_settle (Response true (Json None)) s
  = {| Prices.data := []; Prices.total := 0; Prices.q := Prices.q s;
       Prices.loading := false; Prices.page := Prices.page s |}.
Proof. reflexivity. Qed.

(** C2, as the code has it. For a row count up to 2^53 (the integers a
    double holds exactly) the page count is the least number of pages of
    25 rows that hold [total] rows, and at least 1. [page] is never negative
    in a reachable state. The next control is enabled only when
    [page + 1 < pages], and pressing it then leaves [page] below [pages];
    the previous control is enabled only when [page > 0], and pressing it
    moves one page down, staying below [pages] if [page] was. Nothing is
    said of [page < pages] once a later response changes [total]. *)
Theorem pager_bounds :
  forall (API_BASE : string) (s : Prices.Screen),
    (Prices.total s <= 2 ^ 53 ->
     1 <= Prices.pages s
     /\ Prices.total s <= 25 * Prices.pages s
     /\ (forall n, 1 <= n -> Prices.total s <= 25 * n -> Prices.pages s <= n))
    /\ (forall x, Prices.reachable API_BASE x -> 0 <= Prices.page (fst x))
    /\ (Prices.next_disabled s = true <-> Prices.page s + 1 >= Prices.pages s)
    /\ (Prices.prev_disabled s = true <-> Prices.page s <= 0)
    /\ (Prices.next_disabled s = false ->
        0 <= Prices.page s ->
        let s' := fst (Prices.goNext API_BASE s) in
        Prices.page s' = Prices.page s + 1
        /\ 0 <= Prices.page s' < Prices.pages s')
    /\ (Prices.prev_disabled s = false ->
        let s' := fst (Prices.goPrev API_BASE s) in
        Prices.page s' = Prices.page s - 1
        /\ 0 <= Prices.page s'
        /\ (Prices.page s < Prices.pages s -> Prices.page s' < Prices.pages s')).
Proof.
  intros API_BASE s.
  split; [intros _; exact (pages_least s) |].
  split; [intros x; apply page_never_negative |].
  unfold Prices.next_disabled, Prices.prev_disabled.
  split; [rewrite Z.geb_le; lia |].
  split; [rewrite Z.leb_le; lia |].
  split.
  - intros Hd Hp. set (s' := fst (Prices.goNext API_BASE s)).
    assert (Hlt : Prices.page s + 1 < Prices.pages s).
    { destruct (Z.geb_spec (Prices.page s + 1) (Prices.pages s)); [discriminate | lia]. }
    assert (Ep : Prices.page s' = Prices.page s + 1)
      by (unfold s', Prices.goNext; now rewrite (proj1 (page_effect_screen _ _ _))).
    assert (Et : Prices.pages s' = Prices.pages s).
    { unfold Prices.pages, s', Prices.goNext.
      now rewrite (proj2 (page_effect_screen _ _ _)). }
    rewrite Ep, Et. lia.
  - intros Hd. set (s' := fst (Prices.goPrev API_BASE s)).
    assert (Hgt : 0 < Prices.page s).
    { destruct (Z.leb_spec (Prices.page s) 0); [discriminate | lia]. }
    assert (Ep : Prices.page s' = Z.max 0 (Prices.page s - 1))
      by (unfold s', Prices.goPrev; now rewrite (proj1 (page_effect_screen _ _ _))).
    assert (Et : Prices.pages s' = Prices.pages s).
    { unfold Prices.pages, s', Prices.goPrev.
      now rewrite (proj2 (page_effect_screen _ _ _)). }
    rewrite Ep, Et. lia.
Qed.

Lemma pager_bounds_witness :
  Prices.total Prices.first_of_four <= 2 ^ 53
  /\ Prices.next_disabled Prices.first_of_four = false
  /\ 0 <= Prices.page Prices.first_of_four
  /\ (1 <= Prices.pages Prices.first_of_four
      /\ Prices.total Prices.first_of_four <= 25 * Prices.pages Prices.first_of_four
      /\ (forall n, 1 <= n -> Prices.total Prices.first_of_four <= 25 * n ->
                    Prices.pages Prices.first_of_four <= n))
  /\ Prices.page (fst (Prices.goNext "http://localhost:8000" Prices.first_of_four))
     = Prices.page Prices.first_of_four + 1
  /\ 0 <= Prices.page (fst (Prices.goNext "http://localhost:8000" Prices.first_of_four))
       < Prices.pages (fst (Prices.goNext "http://localhost:8000" Prices.first_of_four)).
Proof.
  assert (Ht : Prices.total Prices.first_of_four <= 2 ^ 53) by (cbn; lia).
  assert (Hd : Prices.next_disabled Prices.first_of_four = false) by reflexivity.
  assert (Hp : 0 <= Prices.page Prices.first_of_four) by (cbn; lia).
  split; [exact Ht |]. split; [exact Hd |]. split; [exact Hp |].
  split.
  - exact (proj1 (pager_bounds "http://localhost:8000" Prices.first_of_four) Ht).
  - exact (proj1 (proj2 (proj2 (proj2 (proj2
             (pager_bounds "http://localhost:8000" Prices.first_of_four))))) Hd Hp).
Defined.

Section PricesRuns.
Variable API_BASE : string.
Import Prices.

(** Pressing next on page [n] of the list of 100 rows and receiving the
    next page. *)
Lemma reach_next_page (n : Z) :
  0 <= n < 3 ->
  reachable API_BASE (on_page n, []) -> reachable API_BASE (on_page (n + 1), []).
Proof.
  intros Hn R.
  assert (Hd : next_disabled (on_page n) = false).
  { unfold next_disabled. rewrite pages_closed_form. cbn.
    destruct (Z.geb_spec (n + 1) 4); [lia | reflexivity]. }
  assert (Hne : (n =? n + 1)%Z = false) by (apply Z.eqb_neq; lia).
  assert (E : issue [] (goNext API_BASE (on_page n))
              = (setLoading true (on_page (n + 1)),
                 [ {| path := API_BASE ++ "/pricelist";
                      params := query (on_page (n + 1)) |} ])).
  { unfold issue, goNext, page_effect. cbn [page setPage on_page]. rewrite Hne.
    reflexivity. }
  apply reach_step with (x := issue [] (goNext API_BASE (on_page n))).
  - apply reach_step with (x := (on_page n, [])); [exact R |].
    now apply step_next.
  - rewrite E.
    exact (step_settle API_BASE hundred (setLoading true (on_page (n + 1))) [] _ []).
Qed.

Lemma reach_first_page : reachable API_BASE (first_of_four, []).
Proof.
  apply reach_step with (x := mounted API_BASE); [apply reach_mount |].
  exact (step_settle API_BASE hundred (fst (mounted API_BASE)) []
           {| path := API_BASE ++ "/pricelist"; params := query initial |} []).
Qed.

Lemma reach_third_page : reachable API_BASE (third_page, []).
Proof.
  apply reach_step with (x := (on_page 2, [])); [| apply step_type].
  apply (reach_next_page 1); [lia |].
  apply (reach_next_page 0); [lia |].
  exact reach_first_page.
Qed.

Lemma reach_stranded : reachable API_BASE (stranded, []).
Proof.
  apply reach_step with (x := issue [] (goNext API_BASE first_of_four)).
  - apply reach_step with (x := (first_of_four, [])); [exact reach_first_page |].
    apply step_next. reflexivity.
  - exact (step_settle API_BASE (Rejected (Error "Network request failed"))
             (fst (goNext API_BASE first_of_four)) []
             {| path := API_BASE ++ "/pricelist";
                params := query (setPage (fun p => p + 1) first_of_four) |} []).
Qed.

End PricesRuns.

(** C2 does not hold as stated: the screen can be mounted, receive a list of
    100 rows, have next pressed and the request for the second page rejected;
    it is then on page index 1 of a list of 1 page. *)
Lemma page_can_pass_last_page :
  Prices.reachable "http://localhost:8000" (Prices.stranded, [])
  /\ Prices.pages Prices.stranded = 1
  /\ Prices.page Prices.stranded >= Prices.pages Prices.stranded.
Proof.
  split; [apply reach_stranded |].
  split; [reflexivity | vm_compute; discriminate].
Qed.

(** C7 fails on the code when the search is run from a later page. The third
    page of a list, with the term [ shirt] typed in, is a state the screen
    reaches; pressed there, [runSearch] resets [page] to 0 but sends two
    requests: the first carries [offset=50], the offset of the render the
    handler was created in, and only the second, sent by the effect of the
    page change, carries [offset=0]. *)
Theorem search_from_third_page :
  Prices.reachable "http://localhost:8000" (Prices.third_page, [])
  /\ Prices.page Prices.third_page = 2
  /\ Prices.page (fst (Prices.runSearch "http://localhost:8000" Prices.third_page)) = 0
  /\ snd (Prices.runSearch "http://localhost:8000" Prices.third_page)
     = [ {| Prices.path := "http://localhost:8000/pricelist";
            Prices.params := [("limit", "25"); ("offset", "50"); ("q", "shirt")] |};
         {| Prices.path := "http://localhost:8000/pricelist";
            Prices.params := [("limit", "25"); ("offset", "0"); ("q", "shirt")] |} ].
Proof.
  split; [apply reach_third_page |]. repeat split.
Qed.

(** On the first page the search sends its one request, with [limit=25],
    [offset=0] and the trimmed term, or no term when it trims to nothing. *)
Lemma search_from_first_page (API_BASE : string) (s : Prices.Screen) :
  Prices.page s = 0 ->
  Prices.page (fst (Prices.runSearch API_BASE s)) = 0
  /\ exists r,
      snd (Prices.runSearch API_BASE s) = [r]
      /\ Prices.params_get "limit" (Prices.params r) = Some "25"
      /\ Prices.params_get "offset" (Prices.params r) = Some "0"
      /\ Prices.params_get "q" (Prices.params r)
         = (if str_truthy (trim (Prices.q s)) then Some (trim (Prices.q s)) else None).
Proof.
  intros Hp.
  destruct (runSearch_requests API_BASE s) as (E0 & Er & El & Eo & Eq).
  split; [exact E0 |].
  rewrite Hp in Er, Eo. cbn in Er.
  eexists. split; [exact Er |]. cbn [Prices.params].
  repeat split; assumption.
Qed.

(** Scenario A: the term [shirt] finds 3 rows: one page, next disabled. *)
Example three_shirts :
  let s := Prices.load_settle
             (Response true
                (Json (Some {| Prices.rows := Some [Prices.shirt; Prices.shirt; Prices.shirt];
                               Prices.row_count := Some 3;
                               Prices.detail_message := None |})))
             (fst (Prices.runSearch "http://localhost:8000"
                     (Prices.setQ "shirt" Prices.initial))) in
  Prices.pages s = 1 /\ Prices.next_disabled s = true /\ Prices.total s = 3.
Proof. repeat split. Qed.

(** *** The currency formatter *)

(** C10. [fmtCurrency] always returns: the dash for [null], [undefined] and
    the empty string; a non-empty string that [Number] reads as [NaN] comes
    back unchanged, and every other non-empty string is formatted as the
    number it reads as; a number that is [NaN] gives [String(val)], every
    other number the locale's text, and [String(val)] when the formatting
    throws. *)
Theorem fmtCurrency_total :
  forall (number : Type) (N : JsNumber number) (currency : option string),
    let code := match currency with Some c => c | None => "USD" end in
    Formatters.fmtCurrency Formatters.Null currency = Return "—"
    /\ Formatters.fmtCurrency Formatters.Undefined currency = Return "—"
    /\ Formatters.fmtCurrency (Formatters.Str EmptyString) currency = Return "—"
    /\ (forall s, s <> EmptyString -> num_isNaN (Number_of s) = true ->
          Formatters.fmtCurrency (Formatters.Str s) currency = Return s)
    /\ (forall val : number,
          exists out,
            Formatters.fmtCurrency (Formatters.Num val) currency = Return out
            /\ (num_isNaN val = false ->
                match Intl_currency code val with
                | Return formatted => out = formatted
                | Throw _ => out = num_show val
                end)
            /\ (num_isNaN val = true -> out = num_show val))
    /\ (forall n : Formatters.amount number,
          exists out, Formatters.fmtCurrency n currency = Return out)
    /\ (forall s, s <> EmptyString -> num_isNaN (Number_of s) = false ->
          Formatters.fmtCurrency (Formatters.Str s) currency
          = Formatters.fmtCurrency (Formatters.Num (Number_of s)) currency
          /\ exists out,
              Formatters.fmtCurrency (Formatters.Str s) currency = Return out
              /\ match Intl_currency code (Number_of s) with
                 | Return formatted => out = formatted
                 | Throw _ => out = num_show (Number_of s)
                 end).
Proof.
  intros number N currency code.
  assert (L : forall val, exists out,
             Formatters.localized code val = Return out
             /\ match Intl_currency code val with
                | Return formatted => out = formatted
                | Throw _ => out = num_show val
                end).
  { intros val. unfold Formatters.localized.
    destruct (Intl_currency code val) as [f | e]; cbn; eauto. }
  unfold Formatters.fmtCurrency. fold code. cbn zeta.
  split; [reflexivity |]. split; [reflexivity |]. split; [reflexivity |].
  split; [| split; [| split]].
  - intros s Hs Hn. now rewrite (str_truthy_true _ Hs), Hn.
  - intros val. destruct (num_isNaN val).
    + eexists. split; [reflexivity |]. split; [discriminate | reflexivity].
    + destruct (L val) as (out & E & K). exists out.
      split; [exact E |]. split; [intros _; exact K | discriminate].
  - intros [| | s | val]; cbn; eauto.
    + destruct (str_truthy s); cbn; eauto.
      destruct (num_isNaN (Number_of s)); eauto.
      destruct (L (Number_of s)) as (out & E & _). eauto.
    + destruct (num_isNaN val); eauto.
      destruct (L val) as (out & E & _). eauto.
  - intros s Hs Hn. rewrite (str_truthy_true _ Hs), Hn. cbn [negb].
    split; [reflexivity |].
    destruct (L (Number_of s)) as (out & E & K). exists out. split; assumption.
Qed.

Lemma fmtCurrency_total_witness :
  "abc" <> EmptyString
  /\ num_isNaN (Number_of "abc" : inum) = true
  /\ Formatters.fmtCurrency (number := inum) (Formatters.Str "abc") None = Return "abc"
  /\ " 12 " <> EmptyString
  /\ num_isNaN (Number_of " 12 " : inum) = false
  /\ Formatters.fmtCurrency (number := inum) (Formatters.Str " 12 ") None
     = Formatters.fmtCurrency (Formatters.Num (Int 12)) None.
Proof.
  assert (Hs : "abc" <> EmptyString) by discriminate.
  assert (Hn : num_isNaN (Number_of "abc" : inum) = true) by reflexivity.
  assert (Hs' : " 12 " <> EmptyString) by discriminate.
  assert (Hn' : num_isNaN (Number_of " 12 " : inum) = false) by reflexivity.
  split; [exact Hs |]. split; [exact Hn |].
  split.
  - exact (proj1 (proj2 (proj2 (proj2 (fmtCurrency_total inum inum_number None))))
             "abc" Hs Hn).
  - split; [exact Hs' |]. split; [exact Hn' |].
    exact (proj1 (proj2 (proj2 (proj2 (proj2 (proj2 (proj2
             (fmtCurrency_total inum inum_number None)))))) " 12 " Hs' Hn')).
Defined.

(** In the integer fragment: 12 dollars, and a currency the runtime refuses. *)
Example fmtCurrency_runs :
  Formatters.fmtCurrency (number := inum) (Formatters.Str "12") None = Return "$12.00"
  /\ Formatters.fmtCurrency (Formatters.Num (Int 7)) (Some "EUR") = Return "7"
  /\ Formatters.fmtCurrency (Formatters.Num NaN) None = Return "NaN".
Proof. repeat split. Qed.

(* ===================================================================== *)
(** ** Further properties of the screens *)
(* ===================================================================== *)

(** *** White space *)

Lemma blank_trimStart_below (n : nat) :
  forall s, (String.length s <= n)%nat -> blank (trimStart s) = blank s.
Proof.
  induction n as [|n IH]; intros s Hn.
  - destruct s; [reflexivity | cbn in Hn; lia].
  - destruct s as [|c1 r1]; [reflexivity |].
    cbn [String.length] in Hn. cbn [trimStart].
    destruct (space1 c1) eqn:E1.
    { cbn [blank]. rewrite E1. apply IH; lia. }
    destruct r1 as [|c2 r2]; [reflexivity |].
    cbn [String.length] in Hn.
    destruct (space2 c1 c2) eqn:E2.
    { cbn [blank]. rewrite E1, E2. apply IH; lia. }
    destruct r2 as [|c3 r3]; [reflexivity |].
    cbn [String.length] in Hn.
    destruct (space3 c1 c2 c3) eqn:E3; [| reflexivity].
    cbn [blank]. rewrite E1, E2, E3. apply IH; lia.
Qed.

Lemma blank_trimStart (s : string) : blank (trimStart s) = blank s.
Proof. now apply (blank_trimStart_below (String.length s)). Qed.

Lemma trimEnd_empty (s : string) : trimEnd s = EmptyString <-> blank s = true.
Proof.
  destruct s as [|c r]; [cbn; tauto |].
  cbn [trimEnd]. destruct (blank (String c r)); split; congruence.
Qed.

(** A text trims to nothing exactly when it is white space only. *)
Lemma trim_empty_iff_blank (s : string) : trim s = EmptyString <-> blank s = true.
Proof. unfold trim. now rewrite trimEnd_empty, blank_trimStart. Qed.

(** *** Decimal identifiers *)




(** *** The chat session *)

Section ChatSessions.
Context {number : Type} `{JsNumber number}.
Variable API_BASE : string.
Import Chat.

Lemma alternates_snoc (r : Role) (log : list Msg) (m : Msg) :
  alternates r (log ++ [m])
  = alternates r log
    && role_eqb (role m) (if Nat.even (List.length log) then r else other r).
Proof.
  revert r. induction log as [|x log IH]; intros r; cbn [alternates app List.length].
  - cbn. now rewrite andb_true_r.
  - rewrite IH, andb_assoc. f_equal.
    rewrite Nat.even_succ, <- Nat.negb_even.
    destruct (Nat.even (List.length log)), r; reflexivity.
Qed.

(** The log of a session: the greeting, then turns. *)
Lemma session_log (x : Session) :
  steps API_BASE start x ->
  exists rest,
    messages (fst x) = hello :: rest
    /\ alternates user rest = true
    /\ busy (fst x) = Nat.odd (List.length rest).
Proof.
  intros Hrun. remember start as x0 eqn:E0.
  induction Hrun as [x | x y z Hxy IH Hs]; subst.
  - exists []. repeat split.
  - specialize (IH eq_refl). destruct IH as (rest & El & Ha & Hb).
    pose proof (one_request_in_flight API_BASE _ Hxy) as Hone.
    destruct Hs as [t s p | now t s p | now o s r p]; cbn [fst snd] in *.
    + exists rest. repeat split; assumption.
    + unfold send_start.
      destruct (negb (str_truthy (trim t)) || busy s) eqn:Eg; cbn [fst].
      * exists rest. repeat split; assumption.
      * apply orb_false_elim in Eg. destruct Eg as (_ & Eb).
        exists (rest ++ [ {| id := show_Z now; role := user; text := trim t |} ])%list.
        cbn. rewrite El. split; [reflexivity |].
        rewrite alternates_snoc, Ha, length_app. cbn.
        rewrite Eb in Hb. symmetry in Hb.
        rewrite <- Nat.negb_even in Hb. apply negb_false_iff in Hb. rewrite Hb.
        split; [reflexivity |].
        rewrite Nat.add_1_r, Nat.odd_succ. now rewrite Hb.
    + destruct Hone as [(_ & Ep) | (Eb & _)]; [discriminate |].
      exists (rest ++ [reply now o])%list.
      cbn. rewrite El. split; [reflexivity |].
      rewrite alternates_snoc, Ha, length_app, reply_is_assistant. cbn.
      rewrite Eb in Hb. symmetry in Hb.
      assert (He : Nat.even (List.length rest) = false)
        by (rewrite <- Nat.negb_odd, Hb; reflexivity).
      rewrite He. split; [reflexivity |].
      rewrite Nat.add_1_r, Nat.odd_succ. now rewrite He.
Qed.

End ChatSessions.

Lemma asked_reached {number : Type} `{JsNumber number} :
  Chat.steps (number := number) Chat.sample_base Chat.start Chat.asked.
Proof.
  apply Chat.steps_more with (y := Chat.start); [apply Chat.steps_refl |].
  exact (Chat.step_send Chat.sample_base 1700000000000 "price for item_id 30310"
           Chat.initial []).
Qed.

(** X1. From the greeting screen on, [busy] is up exactly while one request
    is in flight, and there is never a second one. *)
Theorem turns_are_serialized :
  forall (number : Type) (N : JsNumber number) (API_BASE : string) (x : Chat.Session),
    Chat.steps (number := number) API_BASE Chat.start x ->
    (List.length (snd x) <= 1)%nat
    /\ (Chat.busy (fst x) = true <-> snd x <> []).
Proof.
  intros number N API_BASE x Hrun.
  destruct (one_request_in_flight API_BASE x Hrun) as [(Eb & Ep) | (Eb & r & Ep)];
    rewrite Eb, Ep; cbn; split; try lia; split; congruence.
Qed.

Lemma turns_are_serialized_witness :
  Chat.steps (number := inum) Chat.sample_base Chat.start Chat.asked
  /\ (List.length (snd Chat.asked) <= 1)%nat
  /\ (Chat.busy (fst Chat.asked) = true <-> snd Chat.asked <> []).
Proof.
  split; [exact asked_reached |].
  exact (turns_are_serialized inum inum_number Chat.sample_base Chat.asked asked_reached).
Defined.

(** X2. In every session the log is the greeting followed by messages whose
    roles alternate, user first; it ends with a user message exactly while
    the screen is busy. *)
Theorem log_is_greeting_then_turns :
  forall (number : Type) (N : JsNumber number) (API_BASE : string) (x : Chat.Session),
    Chat.steps (number := number) API_BASE Chat.start x ->
    exists rest,
      Chat.messages (fst x) = Chat.hello :: rest
      /\ Chat.alternates Chat.user rest = true
      /\ Chat.busy (fst x) = Nat.odd (List.length rest).
Proof. intros number N API_BASE x. apply session_log. Qed.

Lemma log_is_greeting_then_turns_witness :
  Chat.steps (number := inum) Chat.sample_base Chat.start Chat.asked
  /\ exists rest,
       Chat.messages (fst Chat.asked) = Chat.hello :: rest
       /\ Chat.alternates Chat.user rest = true
       /\ Chat.busy (fst Chat.asked) = Nat.odd (List.length rest).
Proof.
  split; [exact asked_reached |].
  exact (log_is_greeting_then_turns inum inum_number Chat.sample_base Chat.asked
           asked_reached).
Defined.

Section ChatAnswers.
Context {number : Type} `{JsNumber number}.
Import Chat.

Lemma get_of_get_opt (j : json number) (k : string) (v : json number) :
  get_opt (Some j) k = Some v -> get (Some j) k = Return (Some v).
Proof. destruct j; cbn; intros E; try discriminate; now rewrite E. Qed.

Lemma get_nonnull (j : json number) (k : string) :
  j <> JNull -> get (Some j) k = Return (get_opt (Some j) k).
Proof. destruct j; cbn; congruence. Qed.


(** Without rows to show, [pretty] is the plain answer. *)
Lemma pretty_plain (j : json number) :
  j <> JNull ->
  (forall row more, get_opt (Some j) "rows" <> Some (JArr (row :: more))) ->
  pretty j
  = Return ("ℹ️ " ++ str_of (get_opt (Some j) "answer") ++ nl ++ nl ++ "SQL:" ++ nl
              ++ str_of (get_opt (Some j) "sql")).
Proof.
  intros Hj Hrows. unfold pretty.
  rewrite !(get_nonnull j _ Hj).
  destruct (get_opt (Some j) "rows") as [[| | | | [|row more] |]|] eqn:Er;
    try reflexivity.
  now destruct (Hrows row more).
Qed.

End ChatAnswers.

(** X3. A success whose payload has a string [answer], a string [sql] and at
    least one row is answered with the success marker, the answer, the query
    under [SQL:] and the first row pretty-printed under [First row:]; the
    rows after the first leave no trace in the text. *)
Theorem answer_with_rows :
  forall (number : Type) (N : JsNumber number) (now : Z) (j : json number)
         (a q : string) (row : json number) (more : list (json number)),
    get_opt (Some j) "answer" = Some (JStr a) ->
    get_opt (Some j) "sql" = Some (JStr q) ->
    get_opt (Some j) "rows" = Some (JArr (row :: more)) ->
    Chat.reply now (Response true (Json j))
    = {| Chat.id := show_Z (now + 1); Chat.role := Chat.assistant;
         Chat.text := "✅ " ++ a ++ nl ++ nl ++ "SQL:" ++ nl ++ q
                        ++ nl ++ nl ++ "First row:" ++ nl ++ stringify_pretty row |}.
Proof.
  intros number N now j a q row more Ea Eq Er.
  unfold Chat.reply, Chat.answered, Chat.pretty. cbn [awaited bind negb].
  now rewrite Er, (get_of_get_opt _ _ _ Ea), (get_of_get_opt _ _ _ Eq).
Qed.

Lemma answer_with_rows_witness :
  get_opt (Some Chat.top_customers) "answer" = Some (JStr "Top customers")
  /\ get_opt (Some Chat.top_customers) "sql" = Some (JStr "SELECT 1")
  /\ get_opt (Some Chat.top_customers) "rows"
     = Some (JArr [JObj [("cid", JNum (Int 1000001)); ("revenue", JNum (Int 500))];
                   JObj [("cid", JNum (Int 1000002)); ("revenue", JNum (Int 20))]])
  /\ Chat.text (Chat.reply 1700000000200 (Response true (Json Chat.top_customers)))
     = "✅ Top customers" ++ nl ++ nl ++ "SQL:" ++ nl ++ "SELECT 1" ++ nl ++ nl
         ++ "First row:" ++ nl
         ++ "{" ++ nl ++ "  " ++ dquote ++ "cid" ++ dquote ++ ": 1000001," ++ nl
         ++ "  " ++ dquote ++ "revenue" ++ dquote ++ ": 500" ++ nl ++ "}".
Proof.
  split; [reflexivity |]. split; [reflexivity |]. split; [reflexivity |].
  rewrite (answer_with_rows inum inum_number 1700000000200 Chat.top_customers
             "Top customers" "SELECT 1" _ _ eq_refl eq_refl eq_refl).
  reflexivity.
Defined.

(** X4. A success whose payload is not [null], has no first row ([rows]
    missing, not an array, or empty) and whose [answer] and [sql] are
    [printable] (their conversion to a string does not throw) is answered
    with the information marker, the answer and the query, and no row; a
    missing [answer] or [sql] is printed as [undefined]. *)
Theorem answer_without_rows :
  forall (number : Type) (N : JsNumber number) (now : Z) (j : json number),
    j <> JNull ->
    (forall row more, get_opt (Some j) "rows" <> Some (JArr (row :: more))) ->
    printable_val (get_opt (Some j) "answer") = true ->
    printable_val (get_opt (Some j) "sql") = true ->
    Chat.reply now (Response true (Json j))
    = {| Chat.id := show_Z (now + 1); Chat.role := Chat.assistant;
         Chat.text := "ℹ️ " ++ str_of (get_opt (Some j) "answer") ++ nl ++ nl
                        ++ "SQL:" ++ nl ++ str_of (get_opt (Some j) "sql") |}.
Proof.
  intros number N now j Hj Hrows _ _.
  unfold Chat.reply, Chat.answered. cbn [awaited bind negb].
  now rewrite (pretty_plain j Hj Hrows).
Qed.

Lemma answer_without_rows_witness :
  Chat.no_answer <> JNull
  /\ get_opt (Some Chat.no_answer) "rows" = Some (JArr [])
  /\ printable_val (get_opt (Some Chat.no_answer) "answer") = true
  /\ printable_val (get_opt (Some Chat.no_answer) "sql") = true
  /\ Chat.text (Chat.reply 1700000000200 (Response true (Json Chat.no_answer)))
     = "ℹ️ undefined" ++ nl ++ nl ++ "SQL:" ++ nl ++ "SELECT 1".
Proof.
  assert (Hj : Chat.no_answer <> JNull) by discriminate.
  assert (Hr : forall row more,
             get_opt (Some Chat.no_answer) "rows" <> Some (JArr (row :: more)))
    by (intros row more; cbn; discriminate).
  split; [exact Hj |]. split; [reflexivity |].
  split; [reflexivity |]. split; [reflexivity |].
  rewrite (answer_without_rows inum inum_number 1700000000200 _ Hj Hr eq_refl eq_refl).
  reflexivity.
Defined.

(** X5. For a payload whose [answer] and [sql] are [printable], a success
    status ends in the [catch] for the JSON [null] only: reading
    [json.answer] of [null] throws, and the reply is the warning text of
    that exception. Every other such payload is answered from the [try],
    with the success or the information marker. *)
Theorem success_is_caught_only_on_null :
  forall (number : Type) (N : JsNumber number) (now : Z) (j : json number),
    printable_val (get_opt (Some j) "answer") = true ->
    printable_val (get_opt (Some j) "sql") = true ->
    (j = JNull
     /\ exists e, Chat.answered now (Response true (Json j)) = Throw e
                  /\ Chat.reply now (Response true (Json j)) = Chat.caught now e)
    \/ (j <> JNull
        /\ exists body,
            Chat.answered now (Response true (Json j))
            = Return {| Chat.id := show_Z (now + 1); Chat.role := Chat.assistant;
                        Chat.text := "✅ " ++ body |}
            \/ Chat.answered now (Response true (Json j))
               = Return {| Chat.id := show_Z (now + 1); Chat.role := Chat.assistant;
                           Chat.text := "ℹ️ " ++ body |}).
Proof.
  intros number N now j _ _.
  destruct j as [| b | n | t | items | fields] eqn:Ej;
    [left; split; [reflexivity | eexists; split; reflexivity] | ..];
    right; (split; [discriminate |]); rewrite <- Ej;
    assert (Hj : j <> JNull) by (rewrite Ej; discriminate); clear Ej;
    unfold Chat.answered; cbn [awaited bind negb].
  all: destruct (get_opt (Some j) "rows") as [[| | | | [|row more] |]|] eqn:Er.
  all: try (rewrite pretty_plain; [| exact Hj | intros ? ?; rewrite Er; discriminate];
            eexists; right; reflexivity).
  all: unfold Chat.pretty; rewrite Er, !(get_nonnull j _ Hj); cbn [bind];
       eexists; left; reflexivity.
Qed.

Lemma success_is_caught_only_on_null_witness :
  printable_val (get_opt (Some Chat.top_customers) "answer") = true
  /\ printable_val (get_opt (Some Chat.top_customers) "sql") = true
  /\ exists body,
       Chat.answered 1700000000200 (Response true (Json Chat.top_customers))
       = Return {| Chat.id := show_Z (1700000000200 + 1); Chat.role := Chat.assistant;
                   Chat.text := "✅ " ++ body |}
       \/ Chat.answered 1700000000200 (Response true (Json Chat.top_customers))
          = Return {| Chat.id := show_Z (1700000000200 + 1); Chat.role := Chat.assistant;
                      Chat.text := "ℹ️ " ++ body |}.
Proof.
  split; [reflexivity |]. split; [reflexivity |].
  destruct (success_is_caught_only_on_null inum inum_number 1700000000200
              Chat.top_customers eq_refl eq_refl) as [(E & _) | (_ & K)].
  - discriminate E.
  - exact K.
Defined.



(** X7. [send] drops a text exactly when it is white space only (the
    white space of [trim], Unicode spaces included) or the screen is busy;
    every other text is sent. *)
Theorem send_drops_exactly_blank_or_busy :
  forall (API_BASE : string) (now : Z) (t : string) (s : Chat.Screen),
    (Chat.send_start API_BASE now t s = (s, None)
     <-> blank t = true \/ Chat.busy s = true)
    /\ (snd (Chat.send_start API_BASE now t s) <> None
        <-> blank t = false /\ Chat.busy s = false).
Proof.
  intros API_BASE now t s.
  assert (Eb : str_truthy (trim t) = negb (blank t)).
  { destruct (blank t) eqn:B.
    - apply trim_empty_iff_blank in B. now rewrite B.
    - destruct (str_truthy (trim t)) eqn:T; [reflexivity |].
      apply str_truthy_false, trim_empty_iff_blank in T. congruence. }
  unfold Chat.send_start. rewrite Eb, negb_involutive.
  destruct (blank t), (Chat.busy s); cbn; repeat split;
    intros; try tauto; try congruence; try discriminate;
    intuition congruence.
Qed.

(** *** The transport hook, further *)

Section HookFacts.
Context {number : Type} `{JsNumber number}.
Import Transport.

Lemma strip_slash_one (s : string) : strip_slash (s ++ "/") = s.
Proof.
  induction s as [|c r IH]; [reflexivity |].
  cbn [append strip_slash]. destruct r as [|c' r']; [reflexivity |].
  cbn [append] in *. now rewrite IH.
Qed.

Lemma strip_slash_other (s : string) (c : ascii) :
  (N_of_ascii c =? 47)%N = false ->
  strip_slash (s ++ String c EmptyString) = s ++ String c EmptyString.
Proof.
  intros Hc. induction s as [|x r IH].
  - cbn. now rewrite Hc.
  - cbn [append strip_slash]. destruct r as [|c' r'].
    + cbn. now rewrite Hc.
    + cbn [append] in *. now rewrite IH.
Qed.

Lemma failure_text_nonempty (e : exn) : failure_text e <> EmptyString.
Proof.
  unfold failure_text. destruct (str_truthy (message e)) eqn:T; [| discriminate].
  intros E. rewrite E in T. discriminate.
Qed.

(** What the rest of a call leaves in the cells does not depend on what
    they held. *)
Lemma settled_commit_any (o : fetched (json number)) (a b : Api) :
  commit (fst (settled o)) (commit (fst started) a)
  = commit (fst (settled o)) (commit (fst started) b).
Proof.
  destruct (settled_writes o) as [E | (e & _ & E)]; rewrite E; reflexivity.
Qed.

Lemma failed_delivered {P} (o : fetched P) :
  failed o = false -> exists j, o = Response true (Json j).
Proof.
  destruct o as [e | ok [e | j]]; cbn; try discriminate.
  destruct ok; [eauto | discriminate].
Qed.

End HookFacts.

(** X8. The hook's [base] is [API_BASE] without one trailing slash: a base
    that ends in a slash loses exactly that slash, one that ends in another
    character is kept whole, so [http://h/] and [http://h] reach the same
    URLs. *)
Theorem base_drops_one_trailing_slash :
  forall (s path : string) (c : ascii),
    Transport.strip_slash (s ++ "/") = s
    /\ Transport.url (Transport.get_request (s ++ "/") path) = s ++ path
    /\ ((N_of_ascii c =? 47)%N = false ->
        Transport.strip_slash (s ++ String c EmptyString) = s ++ String c EmptyString
        /\ Transport.url (Transport.get_request (s ++ String c EmptyString) path)
           = (s ++ String c EmptyString) ++ path).
Proof.
  intros s path c. unfold Transport.get_request, Transport.base. cbn [Transport.url].
  rewrite strip_slash_one. repeat split.
  - now apply strip_slash_other.
  - now rewrite strip_slash_other.
Qed.

Lemma base_drops_one_trailing_slash_witness :
  (N_of_ascii "0" =? 47)%N = false
  /\ Transport.url (Transport.get_request "http://localhost:8000" "/report/customer/1001")
     = "http://localhost:8000/report/customer/1001"
  /\ Transport.url (Transport.get_request "http://localhost:8000/" "/report/customer/1001")
     = "http://localhost:8000/report/customer/1001".
Proof.
  split; [reflexivity |]. split.
  - exact (proj2 (proj2 (proj2
             (base_drops_one_trailing_slash "http://localhost:800"
                "/report/customer/1001" "0")) eq_refl)).
  - exact (proj1 (proj2
             (base_drops_one_trailing_slash "http://localhost:8000"
                "/report/customer/1001" "0"))).
Defined.

(** X9. When the status is a failure and the payload carries a non-empty
    string at [detail.message], the hook stores exactly that string as its
    error and throws an [Error] with that message. *)
Theorem hook_stores_backend_message :
  forall (number : Type) (N : JsNumber number) (data : json number) (m : string),
    get_opt (get_opt (Some data) "detail") "message" = Some (JStr m) ->
    m <> EmptyString ->
    Transport.settled (Response false (Json data))
    = ([Transport.SetError (Some m); Transport.SetLoading false], Throw (Error m)).
Proof.
  intros number N data m Em Hm.
  unfold Transport.settled, Transport.checked. cbn [awaited bind negb Transport.lift].
  rewrite Em. unfold or_else. cbn [truthy]. rewrite (str_truthy_true _ Hm).
  cbn. unfold Transport.failure_text. cbn. now rewrite (str_truthy_true _ Hm).
Qed.

Lemma hook_stores_backend_message_witness :
  get_opt (get_opt (Some (JObj [("detail", JObj [("message", @JStr inum "unknown table")])]))
             "detail") "message" = Some (JStr "unknown table")
  /\ "unknown table" <> EmptyString
  /\ Transport.settled
       (Response false (Json (JObj [("detail", JObj [("message", @JStr inum "unknown table")])])))
     = ([Transport.SetError (Some "unknown table"); Transport.SetLoading false],
        Throw (Error "unknown table")).
Proof.
  assert (Hm : "unknown table" <> EmptyString) by discriminate.
  split; [reflexivity |]. split; [exact Hm |].
  exact (hook_stores_backend_message inum inum_number
           (JObj [("detail", JObj [("message", JStr "unknown table")])])
           "unknown table" eq_refl Hm).
Defined.

(** X10. When the status is a failure and the payload has no usable
    [detail.message] (missing, [null], empty, zero or [false]), the [Error]
    the hook throws carries the payload's JSON text, and that text is what
    it stores, [Request failed] standing in for an empty one. *)
Theorem hook_falls_back_to_payload_text :
  forall (number : Type) (N : JsNumber number) (data : json number),
    truthy (get_opt (get_opt (Some data) "detail") "message") = false ->
    Transport.settled (Response false (Json data))
    = ([Transport.SetError
          (Some (if str_truthy (stringify data) then stringify data else "Request failed"));
        Transport.SetLoading false],
       Throw (Error (stringify data))).
Proof.
  intros number N data Hm.
  unfold Transport.settled, Transport.checked. cbn [awaited bind negb Transport.lift].
  unfold or_else. rewrite Hm. reflexivity.
Qed.

Lemma hook_falls_back_to_payload_text_witness :
  truthy (get_opt (get_opt (Some (JObj [("error", @JStr inum "boom")])) "detail") "message")
  = false
  /\ Transport.settled (Response false (Json (JObj [("error", @JStr inum "boom")])))
     = ([Transport.SetError (Some ("{" ++ dquote ++ "error" ++ dquote ++ ":"
                                     ++ dquote ++ "boom" ++ dquote ++ "}"));
         Transport.SetLoading false],
        Throw (Error ("{" ++ dquote ++ "error" ++ dquote ++ ":"
                        ++ dquote ++ "boom" ++ dquote ++ "}"))).
Proof.
  split; [reflexivity |].
  exact (hook_falls_back_to_payload_text inum inum_number
           (JObj [("error", JStr "boom")]) eq_refl).
Defined.

(** X11. A call overwrites both cells of the hook: what they hold after it
    depends on how the fetch settled and not on what they held before. After
    a success they are [loading = false] and [error = null], also when an
    earlier call had left an error; after a failure the error is a text that
    is not empty. *)
Theorem call_overwrites_hook_state :
  forall (number : Type) (N : JsNumber number) (API_BASE path : string)
         (o : fetched (json number)) (s s' : Transport.Api),
    let called := fst (snd (Transport.get API_BASE path o)) in
    Transport.commit called s = Transport.commit called s'
    /\ (failed o = false -> Transport.commit called s = Transport.idle)
    /\ (failed o = true ->
        exists m, m <> EmptyString
                  /\ Transport.commit called s
                     = {| Transport.loading := false; Transport.error := Some m |}).
Proof.
  intros number N API_BASE path o s s'. cbn zeta.
  unfold Transport.get. cbn [fst snd].
  destruct (settled_writes o) as [E | (e & Et & E)];
    destruct (Transport.settled o) as [ws r] eqn:Es; cbn [fst snd] in *; subst ws.
  - destruct r; cbn; repeat split; intros Hf;
      destruct (settled_throws_on_failure o Hf) as (e' & _ & K);
      rewrite Es in K; discriminate K.
  - subst r. cbn. repeat split.
    + intros Hf. destruct (failed_delivered o Hf) as (j & ->). cbn in Es. discriminate Es.
    + intros _. exists (Transport.failure_text e). split; [apply failure_text_nonempty | reflexivity].
Qed.

Lemma call_overwrites_hook_state_witness :
  failed (Response true (Json (JObj [("summary", JNull)])) : fetched (json inum)) = false
  /\ Transport.commit
       (fst (snd (Transport.get "http://localhost:8000" "/report/customer/1001"
                    (Response true (Json (JObj [("summary", @JNull inum)]))))))
       {| Transport.loading := false; Transport.error := Some "Failed to fetch" |}
     = Transport.idle.
Proof.
  split; [reflexivity |].
  exact (proj1 (proj2
           (call_overwrites_hook_state inum inum_number "http://localhost:8000"
              "/report/customer/1001" (Response true (Json (JObj [("summary", JNull)])))
              {| Transport.loading := false; Transport.error := Some "Failed to fetch" |}
              Transport.idle)) eq_refl).
Defined.

(** *** The report screen, further *)

Section ReportRuns.
Context {number : Type} `{JsNumber number}.
Variable API_BASE : string.
Import Reports.

Lemma load_report (o : fetched (json number)) (s : Screen) :
  report (load API_BASE o s)
  = match delivered o with Some d => d | None => report s end
  /\ cid (load API_BASE o s) = cid s.
Proof.
  unfold load, load_settle.
  destruct o as [e | [|] [e | j]]; split; reflexivity.
Qed.

End ReportRuns.

(** X12. After any run of loads, each settled before the next is pressed,
    the report on screen is the payload of the last load that succeeded,
    stored as it came, and the report the run started with when none did;
    the customer id is not touched; and the hook's cells are those the last
    load alone would leave. *)
Theorem report_is_last_success :
  forall (number : Type) (N : JsNumber number) (API_BASE : string)
         (os : list (fetched (json number))) (o : fetched (json number))
         (s : Reports.Screen),
    Reports.report (Reports.loads API_BASE os s)
    = fold_left (fun r o => match delivered o with Some d => d | None => r end)
        os (Reports.report s)
    /\ Reports.cid (Reports.loads API_BASE os s) = Reports.cid s
    /\ Reports.api (Reports.loads API_BASE (os ++ [o]) s)
       = Reports.api (Reports.load API_BASE o s).
Proof.
  intros number N API_BASE os o s. split; [| split].
  - revert s. induction os as [|x os IH]; intros s; [reflexivity |].
    cbn [Reports.loads fold_left]. unfold Reports.loads in IH. rewrite IH.
    now rewrite (proj1 (load_report API_BASE x s)).
  - revert s. induction os as [|x os IH]; intros s; [reflexivity |].
    cbn [Reports.loads fold_left]. unfold Reports.loads in IH. rewrite IH.
    now rewrite (proj2 (load_report API_BASE x s)).
  - unfold Reports.loads. rewrite fold_left_app. cbn [fold_left].
    unfold Reports.load, Reports.load_settle. cbn [Reports.load_start fst Reports.api].
    pose proof (settled_commit_any o) as K.
    destruct (Transport.settled o) as [ws r]. cbn [fst] in K.
    destruct r; cbn [Reports.api]; apply K.
Qed.

(** *** The price list, further *)

Section PricesMore.
Variable API_BASE : string.
Import Prices.

Lemma goNext_value (s : Screen) :
  goNext API_BASE s
  = (setLoading true (setPage (fun p => p + 1) s),
     [ {| path := API_BASE ++ "/pricelist";
          params := query (setPage (fun p => p + 1) s) |} ]).
Proof.
  unfold goNext, page_effect. cbn [page setPage].
  assert (E : (page s =? page s + 1)%Z = false) by (apply Z.eqb_neq; lia).
  now rewrite E.
Qed.

Lemma goPrev_value (s : Screen) :
  0 < page s ->
  goPrev API_BASE s
  = (setLoading true (setPage (fun p => Z.max 0 (p - 1)) s),
     [ {| path := API_BASE ++ "/pricelist";
          params := query (setPage (fun p => Z.max 0 (p - 1)) s) |} ]).
Proof.
  intros Hp. unfold goPrev, page_effect. cbn [page setPage].
  assert (E : (page s =? Z.max 0 (page s - 1))%Z = false) by (apply Z.eqb_neq; lia).
  now rewrite E.
Qed.

Lemma query_params (c : Screen) :
  params_get "limit" (query c) = Some "25"
  /\ params_get "offset" (query c) = Some (show_Z (page c * 25))
  /\ params_get "q" (query c)
     = (if str_truthy (trim (q c)) then Some (trim (q c)) else None).
Proof.
  unfold query, offset, limit.
  destruct (str_truthy (trim (q c))); cbn; repeat split.
Qed.

(** While the spinner shows, a request is in flight. *)
Lemma loading_has_pending (x : Session) :
  reachable API_BASE x -> loading (fst x) = true -> snd x <> [].
Proof.
  induction 1 as [| x y _ IH Hs]; [cbn; discriminate |].
  destruct Hs as [t s p | s p | s p Hd | s p Hd | o s b r a];
    unfold issue; cbn [fst snd] in *.
  - exact IH.
  - intros _. unfold runSearch, page_effect, load_start. cbn [fst snd page setPage setLoading].
    destruct (page s =? 0)%Z; cbn [snd]; intros E; now apply app_eq_nil in E as [_ E].
  - unfold goPrev, page_effect.
    destruct (page s =? _)%Z; cbn [fst snd].
    + rewrite app_nil_r. exact IH.
    + intros _ E. now apply app_eq_nil in E as [_ E].
  - rewrite goNext_value. cbn [fst snd]. intros _ E. now apply app_eq_nil in E as [_ E].
  - unfold load_settle. destruct (received o) as [[rs n] | e]; cbn; discriminate.
Qed.

(** The list can show while a request is still in flight: the search pressed
    on the third page sends two requests, and the first answer stops the
    spinner. *)
Lemma list_shows_with_pending :
  reachable API_BASE
    (load_settle hundred (fst (runSearch API_BASE third_page)),
     [ {| path := API_BASE ++ "/pricelist";
          params := query (setPage (fun _ => 0) third_page) |} ]).
Proof.
  apply reach_step with (x := issue [] (runSearch API_BASE third_page)).
  - apply reach_step with (x := (third_page, [])); [apply reach_third_page |].
    apply step_search.
  - exact (step_settle API_BASE hundred (fst (runSearch API_BASE third_page)) []
             {| path := API_BASE ++ "/pricelist"; params := query third_page |}
             [ {| path := API_BASE ++ "/pricelist";
                  params := query (setPage (fun _ => 0) third_page) |} ]).
Qed.

End PricesMore.

(** X13. Turning the page sends exactly one request, for the page turned to:
    [offset] is 25 times the new page index, [limit] is 25, and the search
    term of the screen goes with it, trimmed, or not at all when it trims to
    nothing. The list on screen is not touched before the answer. Pressing
    previous on page 0 would send nothing and change nothing. *)
Theorem page_turn_requests :
  forall (API_BASE : string) (s : Prices.Screen),
    let next := Prices.setPage (fun p => p + 1) s in
    let prev := Prices.setPage (fun p => Z.max 0 (p - 1)) s in
    (Prices.goNext API_BASE s
     = (Prices.setLoading true next,
        [ {| Prices.path := API_BASE ++ "/pricelist"; Prices.params := Prices.query next |} ])
     /\ Prices.params_get "offset" (Prices.query next) = Some (show_Z ((Prices.page s + 1) * 25))
     /\ Prices.params_get "limit" (Prices.query next) = Some "25"
     /\ Prices.params_get "q" (Prices.query next)
        = (if str_truthy (trim (Prices.q s)) then Some (trim (Prices.q s)) else None))
    /\ (Prices.prev_disabled s = false ->
        Prices.goPrev API_BASE s
        = (Prices.setLoading true prev,
           [ {| Prices.path := API_BASE ++ "/pricelist"; Prices.params := Prices.query prev |} ])
        /\ Prices.params_get "offset" (Prices.query prev)
           = Some (show_Z ((Prices.page s - 1) * 25))
        /\ Prices.params_get "q" (Prices.query prev)
           = (if str_truthy (trim (Prices.q s)) then Some (trim (Prices.q s)) else None))
    /\ (Prices.page s = 0 -> Prices.goPrev API_BASE s = (s, [])).
Proof.
  intros API_BASE s next prev. split; [| split].
  - split; [apply goNext_value |].
    destruct (query_params next) as (El & Eo & Eq). repeat split; assumption.
  - intros Hd.
    assert (Hp : 0 < Prices.page s).
    { unfold Prices.prev_disabled in Hd.
      destruct (Z.leb_spec (Prices.page s) 0); [discriminate | lia]. }
    split; [now apply goPrev_value |].
    destruct (query_params prev) as (El & Eo & Eq).
    split; [| exact Eq].
    rewrite Eo. unfold prev. cbn [Prices.page Prices.setPage].
    now replace (Z.max 0 (Prices.page s - 1)) with (Prices.page s - 1) by lia.
  - intros Hp. unfold Prices.goPrev, Prices.page_effect. cbn [Prices.page Prices.setPage].
    rewrite Hp. cbn. destruct s; cbn in *; now subst.
Qed.

Lemma page_turn_requests_witness :
  Prices.prev_disabled (Prices.setQ " shirt" (Prices.on_page 1)) = false
  /\ Prices.goPrev "http://localhost:8000" (Prices.setQ " shirt" (Prices.on_page 1))
     = (Prices.setLoading true (Prices.setQ " shirt" (Prices.on_page 0)),
        [ {| Prices.path := "http://localhost:8000/pricelist";
             Prices.params := [("limit", "25"); ("offset", "0"); ("q", "shirt")] |} ]).
Proof.
  split; [reflexivity |].
  exact (proj1 (proj1 (proj2
           (page_turn_requests "http://localhost:8000"
              (Prices.setQ " shirt" (Prices.on_page 1)))) eq_refl)).
Defined.


(** X15. In every reachable session the spinner shows only while a request
    is in flight. The converse does not hold: after a search from the third
    page the first answer stops the spinner while the second request is
    still in flight. *)
Theorem spinner_shows_only_in_flight :
  forall (API_BASE : string),
    (forall x, Prices.reachable API_BASE x ->
               Prices.loading (fst x) = true -> snd x <> [])
    /\ (exists x, Prices.reachable API_BASE x
                  /\ Prices.loading (fst x) = false /\ List.length (snd x) = 1%nat).
Proof.
  intros API_BASE. split; [apply loading_has_pending |].
  eexists. split; [apply list_shows_with_pending |]. split; reflexivity.
Qed.

Lemma spinner_shows_only_in_flight_witness :
  Prices.reachable "http://localhost:8000" (Prices.mounted "http://localhost:8000")
  /\ Prices.loading (fst (Prices.mounted "http://localhost:8000")) = true
  /\ snd (Prices.mounted "http://localhost:8000") <> [].
Proof.
  assert (R : Prices.reachable "http://localhost:8000" (Prices.mounted "http://localhost:8000"))
    by apply Prices.reach_mount.
  split; [exact R |]. split; [reflexivity |].
  exact (proj1 (spinner_shows_only_in_flight "http://localhost:8000") _ R eq_refl).
Defined.

(** X16. The page count grows with the row count, and is 1 exactly when
    there are at most 25 rows (none, or a negative count, included); on such
    a list the next control is disabled on every page index from 0 on. *)
Theorem short_list_has_one_page :
  forall (s s' : Prices.Screen),
    (Prices.pages s = 1 <-> Prices.total s <= 25)
    /\ (Prices.total s <= Prices.total s' -> Prices.pages s <= Prices.pages s')
    /\ (Prices.total s <= 25 -> 0 <= Prices.page s -> Prices.next_disabled s = true).
Proof.
  intros s s'. rewrite !pages_closed_form.
  split; [| split].
  - Z.div_mod_to_equations. lia.
  - intros Ht. Z.div_mod_to_equations. lia.
  - intros Ht Hp. unfold Prices.next_disabled. rewrite pages_closed_form.
    apply Z.geb_le. Z.div_mod_to_equations. lia.
Qed.

Lemma short_list_has_one_page_witness :
  Prices.total (Prices.load_settle
                  (Response true
                     (Json (Some {| Prices.rows := Some [Prices.shirt];
                                    Prices.row_count := None;
                                    Prices.detail_message := None |})))
                  Prices.initial) <= 25
  /\ 0 <= Prices.page Prices.initial
  /\ Prices.next_disabled
       (Prices.load_settle
          (Response true
             (Json (Some {| Prices.rows := Some [Prices.shirt];
                            Prices.row_count := None;
                            Prices.detail_message := None |})))
          Prices.initial) = true.
Proof.
  split; [cbn; lia |]. split; [cbn; lia |].
  apply (proj2 (proj2 (short_list_has_one_page _ Prices.initial))); cbn; lia.
Defined.

(** X17. [runSearch] always leaves the page index at 0. From page 0 it sends
    one request, with [offset=0]; from any other page it sends two: first
    one with the offset of the page it was pressed on, then one with
    [offset=0]. Every request carries [limit=25] and the trimmed term, or no
    term when it trims to nothing. *)
Theorem search_sends :
  forall (API_BASE : string) (s : Prices.Screen),
    let here := {| Prices.path := API_BASE ++ "/pricelist";
                   Prices.params := Prices.query s |} in
    let first := {| Prices.path := API_BASE ++ "/pricelist";
                    Prices.params := Prices.query (Prices.setPage (fun _ => 0) s) |} in
    Prices.page (fst (Prices.runSearch API_BASE s)) = 0
    /\ (Prices.page s = 0 -> snd (Prices.runSearch API_BASE s) = [here])
    /\ (Prices.page s <> 0 -> snd (Prices.runSearch API_BASE s) = [here; first])
    /\ Prices.params_get "offset" (Prices.params here) = Some (show_Z (Prices.page s * 25))
    /\ Prices.params_get "offset" (Prices.params first) = Some "0"
    /\ (forall r, In r (snd (Prices.runSearch API_BASE s)) ->
          Prices.params_get "limit" (Prices.params r) = Some "25"
          /\ Prices.params_get "q" (Prices.params r)
             = (if str_truthy (trim (Prices.q s)) then Some (trim (Prices.q s)) else None)).
Proof.
  intros API_BASE s here first.
  destruct (runSearch_requests API_BASE s) as (E0 & Er & _).
  destruct (query_params s) as (El & Eo & Eq).
  destruct (query_params (Prices.setPage (fun _ => 0) s)) as (El' & Eo' & Eq').
  split; [exact E0 |].
  split; [intros Hp; rewrite Er, Hp; reflexivity |].
  split; [intros Hp; rewrite Er; apply Z.eqb_neq in Hp; now rewrite Hp |].
  split; [exact Eo |]. split; [exact Eo' |].
  intros r Hr. rewrite Er in Hr.
  destruct (Prices.page s =? 0)%Z; cbn in Hr;
    repeat (destruct Hr as [<- | Hr]); try contradiction; split; assumption.
Qed.

Lemma search_sends_witness :
  Prices.page (Prices.setQ "cap " (Prices.on_page 1)) <> 0
  /\ snd (Prices.runSearch "http://localhost:8000" (Prices.setQ "cap " (Prices.on_page 1)))
     = [ {| Prices.path := "http://localhost:8000/pricelist";
            Prices.params := [("limit", "25"); ("offset", "25"); ("q", "cap")] |};
         {| Prices.path := "http://localhost:8000/pricelist";
            Prices.params := [("limit", "25"); ("offset", "0"); ("q", "cap")] |} ].
Proof.
  assert (Hp : Prices.page (Prices.setQ "cap " (Prices.on_page 1)) <> 0)
    by (cbn; discriminate).
  split; [exact Hp |].
  exact (proj1 (proj2 (proj2
           (search_sends "http://localhost:8000" (Prices.setQ "cap " (Prices.on_page 1)))))
           Hp).
Defined.

(** X18. The pager's label always counts pages from 1: it reads
    [Page page+1 / pages], the [pages === 0] branch never being taken. On
    the screen left by a rejected second page it reads [Page 2 / 1]. *)
Theorem pager_label_counts_from_one :
  forall s : Prices.Screen,
    Prices.pager_label s
    = "Page " ++ show_Z (Prices.page s + 1) ++ " / " ++ show_Z (Prices.pages s)
    /\ Prices.pager_label Prices.stranded = "Page 2 / 1".
Proof.
  intros s. split; [| reflexivity].
  unfold Prices.pager_label.
  assert (E : (Prices.pages s =? 0)%Z = false).
  { apply Z.eqb_neq. pose proof (proj1 (pages_least s)). lia. }
  now rewrite E.
Qed.

(** *** Icons *)

Lemma prefix_occurs (k s : string) :
  prefix k s = true <-> exists post, s = k ++ post.
Proof.
  revert s. induction k as [|a k IH]; intros s.
  - destruct s; cbn; split; eauto.
  - destruct s as [|b s]; cbn.
    + split; [discriminate | intros (post & E); discriminate E].
    + destruct (ascii_dec a b) as [-> | Hab].
      * rewrite IH. split; intros (post & E); exists post; [now rewrite E |].
        now injection E.
      * split; [discriminate | intros (post & E)]. injection E as E1 _. congruence.
Qed.

(** [includes] finds exactly the texts that occur. *)
Lemma includes_occurs (k s : string) : includes k s = true <-> occurs_in k s.
Proof.
  induction s as [|c s IH]; cbn [includes].
  - rewrite orb_false_r, prefix_occurs. split.
    + intros (post & E). exists EmptyString, post. exact E.
    + intros (pre & post & E). destruct pre; [eauto | discriminate E].
  - rewrite orb_true_iff, prefix_occurs, IH. split.
    + intros [(post & E) | (pre & post & E)].
      * exists EmptyString, post. exact E.
      * exists (String c pre), post. cbn. now rewrite E.
    + intros (pre & post & E). destruct pre as [|x pre].
      * left. now exists post.
      * right. exists pre, post. cbn in E. now injection E.
Qed.

Lemma includes_not_occurs (k s : string) : includes k s = false <-> ~ occurs_in k s.
Proof.
  rewrite <- includes_occurs. destruct (includes k s); split; congruence.
Qed.

Section IconFacts.
Variable toLowerCase : string -> string.
Import Prices.

Lemma find_first_key (key k : string) (a : asset) (before after : list (string * asset)) :
  (forall k' a', In (k', a') before -> includes k' key = false) ->
  includes k key = true ->
  find (fun k0 => includes k0 key) (map fst (before ++ (k, a) :: after)) = Some k.
Proof.
  intros Hb Hk. induction before as [|[k' a'] before IH]; cbn.
  - now rewrite Hk.
  - rewrite (Hb k' a' (or_introl eq_refl)). apply IH.
    intros k'' a'' Hin. apply (Hb k'' a''). now right.
Qed.

Lemma icon_of_first_key (k : string) (a : asset) (before after : list (string * asset)) :
  (forall k' a', In (k', a') before -> k' <> k) ->
  icon_of k (before ++ (k, a) :: after) = Some a.
Proof.
  intros Hb. induction before as [|[k' a'] before IH]; cbn.
  - now rewrite String.eqb_refl.
  - assert (E : String.eqb k k' = false).
    { apply String.eqb_neq. intros ->. now apply (Hb k' a' (or_introl eq_refl)). }
    rewrite E. apply IH. intros k'' a'' Hin. apply (Hb k'' a''). now right.
Qed.

End IconFacts.

(** X19. For a name that is not empty, the icon is that of the first word
    of [ICONS_BY_NAME], in the order the table is written, that occurs in the
    lower-cased name: words after it in the table do not count, however
    early they stand in the name. *)
Theorem icon_is_first_word_found :
  forall (toLowerCase : string -> string) (name k : string) (a : Prices.asset)
         (before after : list (string * Prices.asset)),
    name <> EmptyString ->
    Prices.ICONS_BY_NAME = (before ++ (k, a) :: after)%list ->
    occurs_in k (toLowerCase name) ->
    (forall k' a', In (k', a') before -> ~ occurs_in k' (toLowerCase name)) ->
    Prices.getIconForName toLowerCase (Some name) = a.
Proof.
  intros lower name k a before after Hn Hsplit Hk Hb.
  unfold Prices.getIconForName. rewrite (str_truthy_true _ Hn). cbn [negb].
  rewrite Hsplit.
  rewrite (find_first_key (lower name) k a before after).
  - rewrite icon_of_first_key; [reflexivity |].
    intros k' a' Hin E. subst k'. exact (Hb k a' Hin Hk).
  - intros k' a' Hin. apply includes_not_occurs. now apply (Hb k' a').
  - now apply includes_occurs.
Qed.

Lemma icon_is_first_word_found_witness :
  "Shirt-jacket, wool" <> EmptyString
  /\ Prices.ICONS_BY_NAME
     = ([] ++ ("shirt", Prices.shirt_png)
           :: [("pants", Prices.pants_png); ("shoes", Prices.shoes_png);
               ("jacket", Prices.jacket_png); ("blazer", Prices.jacket_png);
               ("dress", Prices.dress_png); ("cap", Prices.cap_png);
               ("washing", Prices.washing_png); ("default", Prices.default_png)])%list
  /\ occurs_in "shirt" (lower_ascii "Shirt-jacket, wool")
  /\ Prices.getIconForName lower_ascii (Some "Shirt-jacket, wool") = Prices.shirt_png.
Proof.
  assert (Hn : "Shirt-jacket, wool" <> EmptyString) by discriminate.
  assert (Hk : occurs_in "shirt" (lower_ascii "Shirt-jacket, wool"))
    by (exists EmptyString, "-jacket, wool"; reflexivity).
  split; [exact Hn |]. split; [reflexivity |]. split; [exact Hk |].
  apply (icon_is_first_word_found lower_ascii "Shirt-jacket, wool" "shirt"
           Prices.shirt_png [] _ Hn eq_refl Hk).
  intros k' a' [].
Defined.

(** X20. A name left out and the empty name get the default icon; a name
    that is not empty gets the default icon exactly when none of the eight
    garment words of the table occurs in its lower-cased form. *)
Theorem icon_is_default_without_garment_word :
  forall (toLowerCase : string -> string) (name : string),
    Prices.getIconForName toLowerCase None = Prices.default_png
    /\ Prices.getIconForName toLowerCase (Some EmptyString) = Prices.default_png
    /\ (name <> EmptyString ->
        (Prices.getIconForName toLowerCase (Some name) = Prices.default_png
         <-> forall k, In k ["shirt"; "pants"; "shoes"; "jacket"; "blazer";
                                "dress"; "cap"; "washing"] ->
                       ~ occurs_in k (toLowerCase name))).
Proof.
  intros lower name. split; [reflexivity |]. split; [reflexivity |].
  intros Hn. unfold Prices.getIconForName. rewrite (str_truthy_true _ Hn).
  cbn [negb Prices.ICONS_BY_NAME map fst find].
  set (key := lower name).
  assert (Hit : forall k, includes k key = true ->
                  In k ["shirt"; "pants"; "shoes"; "jacket"; "blazer";
                          "dress"; "cap"; "washing"] ->
                  ~ (forall k0, In k0 ["shirt"; "pants"; "shoes"; "jacket"; "blazer";
                                         "dress"; "cap"; "washing"] ->
                                ~ occurs_in k0 key)).
  { intros k Hk Hin Hall. apply (Hall k Hin). now apply includes_occurs. }
  destruct (includes "shirt" key) eqn:E1;
    [cbn; split; [discriminate | intros K; destruct (Hit _ E1 ltac:(cbn; tauto) K)] |].
  destruct (includes "pants" key) eqn:E2;
    [cbn; split; [discriminate | intros K; destruct (Hit _ E2 ltac:(cbn; tauto) K)] |].
  destruct (includes "shoes" key) eqn:E3;
    [cbn; split; [discriminate | intros K; destruct (Hit _ E3 ltac:(cbn; tauto) K)] |].
  destruct (includes "jacket" key) eqn:E4;
    [cbn; split; [discriminate | intros K; destruct (Hit _ E4 ltac:(cbn; tauto) K)] |].
  destruct (includes "blazer" key) eqn:E5;
    [cbn; split; [discriminate | intros K; destruct (Hit _ E5 ltac:(cbn; tauto) K)] |].
  destruct (includes "dress" key) eqn:E6;
    [cbn; split; [discriminate | intros K; destruct (Hit _ E6 ltac:(cbn; tauto) K)] |].
  destruct (includes "cap" key) eqn:E7;
    [cbn; split; [discriminate | intros K; destruct (Hit _ E7 ltac:(cbn; tauto) K)] |].
  destruct (includes "washing" key) eqn:E8;
    [cbn; split; [discriminate | intros K; destruct (Hit _ E8 ltac:(cbn; tauto) K)] |].
  split.
  - intros _ k Hin. apply includes_not_occurs.
    cbn in Hin. repeat (destruct Hin as [<- | Hin]; [assumption |]). contradiction.
  - intros _. destruct (includes "default" key); reflexivity.
Qed.

Lemma icon_is_default_without_garment_word_witness :
  "Duvet (king)" <> EmptyString
  /\ Prices.getIconForName lower_ascii (Some "Duvet (king)") = Prices.default_png.
Proof.
  assert (Hn : "Duvet (king)" <> EmptyString) by discriminate.
  split; [exact Hn |].
  apply (proj2 (proj2 (icon_is_default_without_garment_word lower_ascii "Duvet (king)")) Hn).
  intros k Hin. apply includes_not_occurs.
  cbn in Hin. repeat (destruct Hin as [<- | Hin]; [reflexivity |]). contradiction.
Defined.

(** *** The formatters, further *)

Section TruncateFacts.
Import Formatters.

Lemma slice_to_length (stop : Z) (s : ustring) :
  Z.of_nat (List.length (slice_to stop s))
  = (if (stop <? 0)%Z then Z.max (Z.of_nat (List.length s) + stop) 0
     else Z.min stop (Z.of_nat (List.length s))).
Proof.
  unfold slice_to. rewrite length_firstn.
  destruct (stop <? 0)%Z eqn:E; [apply Z.ltb_lt in E | apply Z.ltb_ge in E]; lia.
Qed.

End TruncateFacts.

(** X21. For a length of at least 1, [truncate] returns at most that many
    code units: a string that fits comes back as it is, a longer one is cut
    to its first [len - 1] code units followed by the ellipsis, [len] code
    units in all; truncating twice is truncating once; and the length left
    out is 120. *)
Theorem truncate_fits :
  forall (s : Formatters.ustring) (len : Z),
    1 <= len ->
    (Z.of_nat (List.length s) <= len -> Formatters.truncate s (Some len) = s)
    /\ (len < Z.of_nat (List.length s) ->
        Formatters.truncate s (Some len)
        = (firstn (Z.to_nat (len - 1)) s ++ [Formatters.ellipsis])%list
        /\ Z.of_nat (List.length (Formatters.truncate s (Some len))) = len)
    /\ Z.of_nat (List.length (Formatters.truncate s (Some len))) <= len
    /\ Formatters.truncate (Formatters.truncate s (Some len)) (Some len)
       = Formatters.truncate s (Some len)
    /\ Formatters.truncate s None = Formatters.truncate s (Some 120).
Proof.
  intros s len Hlen.
  assert (Hfit : forall t : Formatters.ustring,
             Z.of_nat (List.length t) <= len -> Formatters.truncate t (Some len) = t).
  { intros t Ht. unfold Formatters.truncate. destruct t as [|c t]; [reflexivity |].
    destruct (Z.gtb_spec (Z.of_nat (List.length (c :: t))) len); [lia | reflexivity]. }
  assert (Hcut : len < Z.of_nat (List.length s) ->
             Formatters.truncate s (Some len)
             = (firstn (Z.to_nat (len - 1)) s ++ [Formatters.ellipsis])%list
             /\ Z.of_nat (List.length (Formatters.truncate s (Some len))) = len).
  { intros Hlong. unfold Formatters.truncate. destruct s as [|c t]; [cbn in Hlong; lia |].
    destruct (Z.gtb_spec (Z.of_nat (List.length (c :: t))) len); [| lia].
    assert (Es : Formatters.slice_to (len - 1) (c :: t) = firstn (Z.to_nat (len - 1)) (c :: t)).
    { unfold Formatters.slice_to.
      destruct (Z.ltb_spec (len - 1) 0); [lia |]. f_equal. lia. }
    rewrite Es. split; [reflexivity |].
    rewrite length_app, length_firstn. cbn [List.length] in *. lia. }
  assert (Hle : Z.of_nat (List.length (Formatters.truncate s (Some len))) <= len).
  { destruct (Z.le_gt_cases (Z.of_nat (List.length s)) len) as [Hs | Hs].
    - now rewrite (Hfit s Hs).
    - destruct (Hcut Hs) as (_ & E). lia. }
  split; [exact (Hfit s) |]. split; [exact Hcut |]. split; [exact Hle |].
  split; [exact (Hfit _ Hle) | reflexivity].
Qed.

Lemma truncate_fits_witness :
  1 <= 4
  /\ 4 < Z.of_nat (List.length [104; 101; 108; 108; 111; 33]%N)
  /\ Formatters.truncate [104; 101; 108; 108; 111; 33]%N (Some 4)
     = [104; 101; 108; 8230]%N.
Proof.
  assert (H1 : 1 <= 4) by lia.
  assert (H2 : 4 < Z.of_nat (List.length [104; 101; 108; 108; 111; 33]%N)) by (cbn; lia).
  split; [exact H1 |]. split; [exact H2 |].
  exact (proj1 (proj1 (proj2 (truncate_fits [104; 101; 108; 108; 111; 33]%N 4 H1)) H2)).
Defined.

(** X22. A length of 0 or less does not shorten to that length: a string
    that is not empty then comes back without its last [1 - len] code units
    and with the ellipsis added, so [truncate(s, 0)] is as long as [s], and
    the result is never empty. *)
Theorem truncate_below_one :
  forall (s : Formatters.ustring) (len : Z),
    s <> [] ->
    len <= 0 ->
    Formatters.truncate s (Some len)
    = (firstn (Z.to_nat (Z.of_nat (List.length s) + len - 1)) s
         ++ [Formatters.ellipsis])%list
    /\ Z.of_nat (List.length (Formatters.truncate s (Some len)))
       = Z.max (Z.of_nat (List.length s) + len - 1) 0 + 1
    /\ (len = 0 ->
        List.length (Formatters.truncate s (Some len)) = List.length s).
Proof.
  intros s len Hs Hlen.
  assert (E : Formatters.truncate s (Some len)
              = (firstn (Z.to_nat (Z.of_nat (List.length s) + len - 1)) s
                   ++ [Formatters.ellipsis])%list).
  { unfold Formatters.truncate. destruct s as [|c t]; [congruence |].
    destruct (Z.gtb_spec (Z.of_nat (List.length (c :: t))) len);
      [| cbn [List.length] in *; lia].
    unfold Formatters.slice_to. destruct (Z.ltb_spec (len - 1) 0); [| lia].
    do 2 f_equal. lia. }
  assert (Hpos : (0 < List.length s)%nat) by (destruct s; [congruence | cbn; lia]).
  split; [exact E |]. rewrite E, length_app, length_firstn. cbn [List.length].
  split; [lia | intros ->; lia].
Qed.

Lemma truncate_below_one_witness :
  [104; 105; 33]%N <> []
  /\ 0 <= 0
  /\ Formatters.truncate [104; 105; 33]%N (Some 0) = [104; 105; 8230]%N.
Proof.
  assert (Hs : [104; 105; 33]%N <> []) by discriminate.
  assert (Hl : 0 <= 0) by lia.
  split; [exact Hs |]. split; [exact Hl |].
  exact (proj1 (truncate_below_one [104; 105; 33]%N 0 Hs Hl)).
Defined.

(** X23. A string that is not empty and that [Number] does not read as
    [NaN] is formatted exactly as the number it reads as, in every
    currency. *)
Theorem numeric_string_formats_as_number :
  forall (number : Type) (N : JsNumber number) (s : string) (currency : option string),
    s <> EmptyString ->
    num_isNaN (Number_of s) = false ->
    Formatters.fmtCurrency (Formatters.Str s) currency
    = Formatters.fmtCurrency (Formatters.Num (Number_of s)) currency.
Proof.
  intros number N s currency Hs Hn. unfold Formatters.fmtCurrency.
  now rewrite (str_truthy_true _ Hs), Hn.
Qed.

Lemma numeric_string_formats_as_number_witness :
  " 12 " <> EmptyString
  /\ num_isNaN (Number_of " 12 " : inum) = false
  /\ Formatters.fmtCurrency (number := inum) (Formatters.Str " 12 ") None
     = Formatters.fmtCurrency (Formatters.Num (Int 12)) None.
Proof.
  assert (Hs : " 12 " <> EmptyString) by discriminate.
  assert (Hn : num_isNaN (Number_of " 12 " : inum) = false) by reflexivity.
  split; [exact Hs |]. split; [exact Hn |].
  exact (numeric_string_formats_as_number inum inum_number " 12 " None Hs Hn).
Defined.
